(** * forex_trello.py: high-impact news scraper and Trello updater

    A shallow embedding of [ForexTrelloIntegration] (src/forex_trello.py)
    and the properties of its four steps: fetch, scan, format, post.

    Conventions.
    - A Python [str] is a [string]; each character stands for a code point
      below 256, which is where [isspace] and [lower] are defined here.
    - A Python [dict] with string keys is a [gmap string _]; a missing key
      is a [KeyError].
    - A call that may raise returns an [outcome]; code that prints or
      posts threads a [world] (standard output and the comments posted).
    - The libraries the script calls (requests, bs4, py-trello) are not
      part of the repository.  bs4's tree functions are written out on a
      tree of page elements; the network, the parser and the Trello
      service are arguments of the functions that call them. *)

From stdpp Require Import base option list gmap strings.
From Stdlib Require Import Ascii Arith ZArith Lia.

Local Open Scope nat_scope.
Set Warnings "-register-all".

(** ** Python strings *)

Module Py.

(** [str.isspace] on one code point below 256: TAB..CR, FS..US, space,
    NEL and NBSP. *)
Definition isspace (c : ascii) : bool :=
  let n := nat_of_ascii c in
  ((9 <=? n) && (n <=? 13)) || ((28 <=? n) && (n <=? 32))
  || (n =? 133) || (n =? 160).

(** [str.lower] on one code point below 256: A..Z and the Latin-1
    capitals (all of 192..222 but the multiplication sign 215). *)
Definition lower_char (c : ascii) : ascii :=
  let n := nat_of_ascii c in
  if ((65 <=? n) && (n <=? 90))
     || ((192 <=? n) && (n <=? 222) && negb (n =? 215))
  then ascii_of_nat (n + 32) else c.

Fixpoint lower (s : string) : string :=
  match s with
  | EmptyString => EmptyString
  | String c s' => String (lower_char c) (lower s')
  end.

(** [s.lstrip()], [s.rstrip()] and [s.strip()] with no argument. *)
Fixpoint lstrip (s : string) : string :=
  match s with
  | EmptyString => EmptyString
  | String c s' => if isspace c then lstrip s' else s
  end.

Fixpoint rstrip (s : string) : string :=
  match s with
  | EmptyString => EmptyString
  | String c s' =>
      match rstrip s' with
      | EmptyString => if isspace c then EmptyString else String c EmptyString
      | r => String c r
      end
  end.

Definition strip (s : string) : string := rstrip (lstrip s).

(** [needle in hay] on strings. *)
Fixpoint contains (needle hay : string) : bool :=
  if String.prefix needle hay then true
  else match hay with
       | EmptyString => false
       | String _ hay' => contains needle hay'
       end.

(** [s.replace(c, by)] for a one-character pattern. *)
Fixpoint replace_char (c : ascii) (by_ : string) (s : string) : string :=
  match s with
  | EmptyString => EmptyString
  | String d s' =>
      (if Ascii.eqb c d then by_ else String d EmptyString) +:+ replace_char c by_ s'
  end.

(** [sep.join(l)]. *)
Fixpoint join (sep : string) (l : list string) : string :=
  match l with
  | [] => EmptyString
  | [x] => x
  | x :: l' => x +:+ sep +:+ join sep l'
  end.

(** [''.join(l)]. *)
Definition concat (l : list string) : string :=
  fold_right String.append EmptyString l.

(** Truth value of a string: non-empty. *)
Definition truthy (s : string) : bool :=
  match s with EmptyString => false | _ => true end.

(** [str(n)] for an integer: the decimal digits, most significant first,
    after a minus sign when [n] is negative.  A number has no more
    decimal digits than binary ones, which is the fuel. *)
Definition digit (d : Z) : ascii := ascii_of_N (Z.to_N (48 + d)).

Fixpoint str_digits (fuel : nat) (n : Z) (acc : string) : string :=
  match fuel with
  | 0 => acc
  | S fuel' =>
      let acc' := String (digit (n mod 10)) acc in
      if (n <? 10)%Z then acc' else str_digits fuel' (n / 10) acc'
  end.

Definition str_int (n : Z) : string :=
  if (n <? 0)%Z
  then "-" +:+ str_digits (S (Z.to_nat (Z.log2 (- n)))) (- n) EmptyString
  else str_digits (S (Z.to_nat (Z.log2 n))) n EmptyString.

(** The values the script stores in a dict: [None] or a [str]. *)
Inductive value : Type :=
| None_ : value
| Str : string -> value.

(** [str(v)], as an f-string renders a field. *)
Definition str (v : value) : string :=
  match v with
  | None_ => "None"
  | Str s => s
  end.

(** Exceptions, all of them subclasses of [Exception]. *)
Inductive exn : Type :=
| KeyError (key : string)
| HTTPError (msg : string)
| Exception (cls : string) (msg : string).

(** [str(e)]: a [KeyError] shows the repr of its key. *)
Definition str_exn (e : exn) : string :=
  match e with
  | KeyError k => "'" +:+ k +:+ "'"
  | HTTPError m => m
  | Exception _ m => m
  end.

End Py.

(** ** Results and effects *)

Inductive outcome (A : Type) : Type :=
| Ok (a : A)
| Raise (e : Py.exn).
Arguments Ok {A} a.
Arguments Raise {A} e.

(** What the process changes outside itself: the lines printed and the
    comments posted, each with the card it went to. *)
Record world : Type := World {
  stdout : list string;
  posted : list (string * string)
}.

Definition M (A : Type) : Type := world -> outcome A * world.

Definition ret {A} (a : A) : M A := fun w => (Ok a, w).

Definition bind {A B} (m : M A) (k : A -> M B) : M B :=
  fun w => match m w with
           | (Ok a, w') => k a w'
           | (Raise e, w') => (Raise e, w')
           end.

Definition raise {A} (e : Py.exn) : M A := fun w => (Raise e, w).

Definition lift {A} (o : outcome A) : M A := fun w => (o, w).

(** [try: body except Exception as e: handler(e)] *)
Definition try_except {A} (body : M A) (handler : Py.exn -> M A) : M A :=
  fun w => match body w with
           | (Ok a, w') => (Ok a, w')
           | (Raise e, w') => handler e w'
           end.

Definition print (line : string) : M unit :=
  fun w => (Ok tt, World (stdout w ++ [line]) (posted w)).

Declare Scope py_scope.
Delimit Scope py_scope with py.
Notation "x <- m ;; k" := (bind m (fun x => k))
  (at level 100, m at next level, right associativity) : py_scope.
Notation "m ;;; k" := (bind m (fun _ => k))
  (at level 100, right associativity) : py_scope.

(** Sequencing of calls that may raise but touch nothing outside. *)
Definition obind {A B} (o : outcome A) (k : A -> outcome B) : outcome B :=
  match o with
  | Ok a => k a
  | Raise e => Raise e
  end.
Notation "x <-? o ;; k" := (obind o (fun x => k))
  (at level 100, o at next level, right associativity) : py_scope.

(** [d[k]] on a dict. *)
Definition getitem {V} (d : gmap string V) (k : string) : outcome V :=
  match d !! k with
  | Some v => Ok v
  | None => Raise (Py.KeyError k)
  end.

(** ** The parsed document (bs4)

    What [BeautifulSoup(text, 'html.parser')] returns, as far as the script
    looks at it: a tree of strings, comments and tags.  [class] is
    multi-valued and held as its list of tokens.  The other special strings
    of bs4 (doctype, CDATA, the text of script and style tags) have no
    constructor here. *)

Module Bs4.

Inductive attr_value : Type :=
| AttrStr (s : string)
| AttrList (tokens : list string).

Inductive PageElement : Type :=
| NavigableString (s : string)
| Comment (s : string)
| Tag (name : string) (attrs : list (string * attr_value))
      (contents : list PageElement).

(** [tag.attrs.get(key)] *)
Fixpoint attr_get (key : string) (attrs : list (string * attr_value))
  : option attr_value :=
  match attrs with
  | [] => None
  | (k, v) :: attrs' => if String.eqb k key then Some v else attr_get key attrs'
  end.

(** Matching [class_=cls]: one of the tokens is [cls], or the whole
    attribute value is. *)
Definition has_class (cls : string) (attrs : list (string * attr_value)) : bool :=
  match attr_get "class" attrs with
  | Some (AttrList tokens) =>
      existsb (String.eqb cls) tokens || String.eqb (Py.join " " tokens) cls
  | Some (AttrStr s) => String.eqb s cls
  | None => false
  end.

Definition matches (name cls : string) (e : PageElement) : bool :=
  match e with
  | NavigableString _ | Comment _ => false
  | Tag n attrs _ => String.eqb n name && has_class cls attrs
  end.

(** [tag.descendants]: every element below the tag, in document order. *)
Fixpoint descendants (e : PageElement) : list PageElement :=
  match e with
  | NavigableString _ | Comment _ => []
  | Tag _ _ contents =>
      (fix go (l : list PageElement) : list PageElement :=
         match l with
         | [] => []
         | c :: l' => c :: descendants c ++ go l'
         end) contents
  end.

(** [tag.find_all(name, class_=cls)] and [tag.find(name, class_=cls)]. *)
Definition find_all (e : PageElement) (name cls : string) : list PageElement :=
  List.filter (matches name cls) (descendants e).

Definition find (e : PageElement) (name cls : string) : option PageElement :=
  head (find_all e name cls).

(** [tag.text]: the strings below the tag, concatenated; comments are
    not part of it. *)
Fixpoint text (e : PageElement) : string :=
  match e with
  | NavigableString s => s
  | Comment _ => EmptyString
  | Tag _ _ contents =>
      (fix go (l : list PageElement) : string :=
         match l with
         | [] => EmptyString
         | c :: l' => text c +:+ go l'
         end) contents
  end.

(** Serialisation, [str(tag)], with the default (minimal) formatter. *)
Definition substitute_xml (s : string) : string :=
  Py.replace_char ">" "&gt;"
    (Py.replace_char "<" "&lt;" (Py.replace_char "&" "&amp;" s)).

Definition dquote : string := String (ascii_of_nat 34) EmptyString.

Definition quoted_attribute_value (v : string) : string :=
  if Py.contains dquote v then
    if Py.contains "'" v
    then dquote +:+ Py.replace_char (ascii_of_nat 34) "&quot;" v +:+ dquote
    else "'" +:+ v +:+ "'"
  else dquote +:+ v +:+ dquote.

Definition attr_string (v : attr_value) : string :=
  match v with
  | AttrStr s => s
  | AttrList tokens => Py.join " " tokens
  end.

Definition decode_attr (kv : string * attr_value) : string :=
  " " +:+ fst kv +:+ "=" +:+ quoted_attribute_value (substitute_xml (attr_string (snd kv))).

(** Tags written [<br/>] when they have no contents. *)
Definition empty_element_tags : list string :=
  [ "area"; "base"; "br"; "col"; "embed"; "hr"; "img"; "input"; "keygen";
    "link"; "menuitem"; "meta"; "param"; "source"; "track"; "wbr";
    "basefont"; "bgsound"; "command"; "frame"; "image"; "isindex";
    "nextid"; "spacer" ]%string.

Definition is_empty_element (name : string) (contents : list PageElement) : bool :=
  existsb (String.eqb name) empty_element_tags
  && match contents with [] => true | _ => false end.

(** [sorted(tag.attrs.items())]: the formatter writes the attributes in
    the order of their names. *)
Fixpoint insert_attr (kv : string * attr_value) (l : list (string * attr_value))
  : list (string * attr_value) :=
  match l with
  | [] => [kv]
  | kv' :: l' =>
      if String.leb (fst kv) (fst kv') then kv :: l else kv' :: insert_attr kv l'
  end.

Definition sorted_attrs (attrs : list (string * attr_value))
  : list (string * attr_value) :=
  fold_right insert_attr [] attrs.

Fixpoint decode (e : PageElement) : string :=
  match e with
  | NavigableString s => substitute_xml s
  | Comment s => "<!--" +:+ s +:+ "-->"
  | Tag name attrs contents =>
      let attribute_string := Py.concat (map decode_attr (sorted_attrs attrs)) in
      if is_empty_element name contents
      then "<" +:+ name +:+ attribute_string +:+ "/>"
      else "<" +:+ name +:+ attribute_string +:+ ">"
           +:+ (fix go (l : list PageElement) : string :=
                  match l with
                  | [] => EmptyString
                  | c :: l' => decode c +:+ go l'
                  end) contents
           +:+ "</" +:+ name +:+ ">"
  end.

End Bs4.

(** ** The row scan of [get_high_impact_news] (lines 44-70) *)

Abbreviation event := (gmap string Py.value).

(** [cell.text.strip() if cell else 'N/A']; a tag is always true. *)
Definition text_or_na (cell : option Bs4.PageElement) : Py.value :=
  match cell with
  | Some c => Py.Str (Py.strip (Bs4.text c))
  | None => Py.Str "N/A"
  end.

(** [impact and 'high' in str(impact).lower()] *)
Definition is_high_impact (row : Bs4.PageElement) : bool :=
  match Bs4.find row "td" "impact" with
  | Some impact => Py.contains "high" (Py.lower (Bs4.decode impact))
  | None => false
  end.

(** The date assignment of lines 51-53. *)
Definition next_date (current_date : Py.value) (row : Bs4.PageElement) : Py.value :=
  match Bs4.find row "td" "calendar__date" with
  | Some date_cell =>
      if Py.truthy (Py.strip (Bs4.text date_cell))
      then Py.Str (Py.strip (Bs4.text date_cell))
      else current_date
  | None => current_date
  end.

(** The dict literal of lines 61-68. *)
Definition news_item (current_date : Py.value) (row : Bs4.PageElement) : event :=
  {[ "date" := current_date;
     "time" := text_or_na (Bs4.find row "td" "calendar__time");
     "currency" := text_or_na (Bs4.find row "td" "calendar__currency");
     "event" := text_or_na (Bs4.find row "td" "calendar__event");
     "forecast" := text_or_na (Bs4.find row "td" "calendar__forecast");
     "previous" := text_or_na (Bs4.find row "td" "calendar__previous") ]}.

(** The loop state: [current_date] and [news_items]. *)
Record scan_state : Type := ScanState {
  current_date : Py.value;
  news_items : list event
}.

(** One iteration of [for row in calendar_rows]. *)
Definition scan_row (st : scan_state) (row : Bs4.PageElement) : scan_state :=
  if is_high_impact row then
    let current_date := next_date (current_date st) row in
    ScanState current_date (news_items st ++ [news_item current_date row])
  else st.

(** The loop, from [current_date = None] and [news_items = []], and the
    list it leaves. *)
Definition scan_rows (calendar_rows : list Bs4.PageElement) : list event :=
  news_items (fold_left scan_row calendar_rows (ScanState Py.None_ [])).

(** [soup.find_all('tr', class_='calendar_row')] *)
Definition calendar_rows (soup : Bs4.PageElement) : list Bs4.PageElement :=
  Bs4.find_all soup "tr" "calendar_row".

(** Lines 44-70: what the fetch returns for the parsed page [soup]. *)
Definition parse_news (soup : Bs4.PageElement) : list event :=
  scan_rows (calendar_rows soup).

(** ** Configuration and the outside world *)

(** [config.yml] as [yaml.safe_load] returns it: sections of string
    settings.  A document of another form (an empty file, a section
    without settings) has no value of this type. *)
Abbreviation config := (gmap string (gmap string string)).

(** [config[section][key]] *)
Definition config_get (cfg : config) (section key : string) : outcome string :=
  (sec <-? getitem cfg section ;; getitem sec key)%py.

Module Requests.

Record Response : Type := {
  status_code : Z;
  reason : string;
  url : string;
  text : string
}.

(** [response.raise_for_status()]: 4xx and 5xx raise [HTTPError]. *)
Definition raise_for_status (r : Response) : outcome unit :=
  if ((400 <=? status_code r) && (status_code r <? 500))%Z then
    Raise (Py.HTTPError (Py.str_int (status_code r) +:+ " Client Error: "
                           +:+ reason r +:+ " for url: " +:+ url r))
  else if ((500 <=? status_code r) && (status_code r <? 600))%Z then
    Raise (Py.HTTPError (Py.str_int (status_code r) +:+ " Server Error: "
                           +:+ reason r +:+ " for url: " +:+ url r))
  else Ok tt.

End Requests.

(** The network and the parser, as the fetch sees them: what
    [requests.get(url, headers=...)] answers and what
    [BeautifulSoup(text, 'html.parser')] builds. *)
Record web : Type := {
  requests_get : string -> gmap string string -> outcome Requests.Response;
  BeautifulSoup : string -> outcome Bs4.PageElement
}.

(** ** [get_high_impact_news] (lines 30-74) *)

Definition get_high_impact_news (cfg : config) (net : web) : M (list event) :=
  (user_agent <- lift (config_get cfg "forex_factory" "user_agent") ;;
   let headers : gmap string string := {[ "User-Agent" := user_agent ]} in
   try_except
     (base_url <- lift (config_get cfg "forex_factory" "base_url") ;;
      response <- lift (requests_get net base_url headers) ;;
      lift (Requests.raise_for_status response) ;;;
      soup <- lift (BeautifulSoup net (Requests.text response)) ;;
      ret (parse_news soup))
     (fun e =>
        print ("Error fetching forex data: " +:+ Py.str_exn e) ;;;
        ret []))%py.

(** ** [format_news_comment] (lines 76-90) *)

(** [datetime.now()], read by the caller. *)
Record datetime : Type := {
  year : Z; month : Z; day : Z;
  hour : Z; minute : Z; second : Z
}.

(** A two-digit field of [strftime] ([%m], [%d], [%H], [%M], [%S]). *)
Definition zfill2 (n : Z) : string :=
  if (n <? 10)%Z then "0" +:+ Py.str_int n else Py.str_int n.

(** [now.strftime('%Y-%m-%d %H:%M:%S')]; [%Y] is the year in decimal. *)
Definition strftime (now : datetime) : string :=
  Py.str_int (year now) +:+ "-" +:+ zfill2 (month now) +:+ "-" +:+ zfill2 (day now)
  +:+ " " +:+ zfill2 (hour now) +:+ ":" +:+ zfill2 (minute now)
  +:+ ":" +:+ zfill2 (second now).

Definition newline : string := String (ascii_of_nat 10) EmptyString.

(** The [for item in news_items] loop, with [comment] as accumulator.
    The six subscripts are evaluated in the order the two f-strings
    name them; the first missing key raises. *)
Fixpoint format_rows (comment : string) (news_items : list event) : outcome string :=
  match news_items with
  | [] => Ok comment
  | item :: rest =>
      (d <-? getitem item "date" ;; t <-? getitem item "time" ;;
       c <-? getitem item "currency" ;;
       let comment := comment +:+ ("| " +:+ Py.str d +:+ " | " +:+ Py.str t
                                   +:+ " | " +:+ Py.str c +:+ " | ") in
       e <-? getitem item "event" ;; f <-? getitem item "forecast" ;;
       p <-? getitem item "previous" ;;
       let comment := comment +:+ (Py.str e +:+ " | " +:+ Py.str f
                                   +:+ " | " +:+ Py.str p +:+ " |" +:+ newline) in
       format_rows comment rest)%py
  end.

Definition format_news_comment (now : datetime) (news_items : list event)
  : outcome string :=
  match news_items with
  | [] => Ok "No high-impact news events found."
  | _ =>
      let comment := "# High Impact Forex News Events" +:+ newline +:+ newline in
      let comment := comment
        +:+ ("| Date | Time | Currency | Event | Forecast | Previous |" +:+ newline) in
      let comment := comment
        +:+ ("|------|------|----------|--------|----------|----------|" +:+ newline) in
      (comment <-? format_rows comment news_items ;;
       Ok (comment +:+ (newline +:+ "Last updated: " +:+ strftime now)))%py
  end.

(** ** [update_trello_card] (lines 92-123) *)

Module Trello.

Record Board : Type := { board_id : string }.
Record List : Type := { list_id : string; list_name : string }.
Record Card : Type := { card_id : string; card_name : string }.

(** The Trello service behind [TrelloClient]: what each call answers. *)
Record client : Type := {
  get_board : string -> outcome Board;
  list_lists : Board -> outcome (list List);
  list_cards : List -> outcome (list Card);
  add_comment : Card -> string -> outcome unit
}.

(** [card.comment(text)]: on success the comment is on the card. *)
Definition comment (api : client) (card : Card) (text : string) : M unit :=
  fun w => match add_comment api card text with
           | Ok _ => (Ok tt, World (stdout w) (posted w ++ [(card_id card, text)]))
           | Raise e => (Raise e, w)
           end.

End Trello.

(** The two search loops (lines 99-103 and 109-113): the wanted name is
    read from the configuration at each comparison, and the first equal
    name ends the loop. *)
Fixpoint first_named {A} (name : A -> string) (wanted : outcome string)
  (l : list A) : outcome (option A) :=
  match l with
  | [] => Ok None
  | x :: l' =>
      match wanted with
      | Raise e => Raise e
      | Ok n => if String.eqb (name x) n then Ok (Some x)
                else first_named name wanted l'
      end
  end.

Definition update_trello_card (cfg : config) (api : Trello.client)
  (comment_text : string) : M unit :=
  (try_except
     (id <- lift (config_get cfg "trello" "board_id") ;;
      board <- lift (Trello.get_board api id) ;;
      lists <- lift (Trello.list_lists api board) ;;
      trello_list <- lift (first_named Trello.list_name
                             (config_get cfg "trello" "list_name") lists) ;;
      match trello_list with
      | None =>
          list_name <- lift (config_get cfg "trello" "list_name") ;;
          raise (Py.Exception "Exception" ("List '" +:+ list_name +:+ "' not found"))
      | Some trello_list =>
          cards <- lift (Trello.list_cards api trello_list) ;;
          card <- lift (first_named Trello.card_name
                          (config_get cfg "trello" "card_name") cards) ;;
          match card with
          | None =>
              card_name <- lift (config_get cfg "trello" "card_name") ;;
              raise (Py.Exception "Exception" ("Card '" +:+ card_name +:+ "' not found"))
          | Some card =>
              Trello.comment api card comment_text ;;;
              print "Successfully updated Trello card with forex news"
          end
      end)
     (fun e => print ("Error updating Trello card: " +:+ Py.str_exn e)))%py.

(** ** [main] (lines 125-129), with the configuration, the services and
    the clock that [__init__] and [datetime.now()] supply *)

Definition main (cfg : config) (net : web) (api : Trello.client) (now : datetime)
  : M unit :=
  (news_items <- get_high_impact_news cfg net ;;
   comment_text <- lift (format_news_comment now news_items) ;;
   update_trello_card cfg api comment_text)%py.

(** ** Notions the statements use *)

(** A string with no whitespace at either end. *)
Definition no_outer_space (s : string) : Prop :=
  (∀ c s', s = String c s' → Py.isspace c = false)
  ∧ (∀ c s', s = s' +:+ String c EmptyString → Py.isspace c = false).

(** A string that is empty or made of whitespace only. *)
Fixpoint all_space (s : string) : bool :=
  match s with
  | EmptyString => true
  | String c s' => Py.isspace c && all_space s'
  end.

(** [needle] occurs in [hay]. *)
Definition occurs_in (needle hay : string) : Prop :=
  ∃ before after, hay = before +:+ needle +:+ after.

(** The date a row declares: the stripped text of its date cell, when the
    row has one and that text is not empty. *)
Definition declared_date (row : Bs4.PageElement) : option string :=
  match Bs4.find row "td" "calendar__date" with
  | Some date_cell =>
      if Py.truthy (Py.strip (Bs4.text date_cell))
      then Some (Py.strip (Bs4.text date_cell)) else None
  | None => None
  end.

(** The date declared by the last of [rows] that declares one, and
    [None] when none of them does: the value of [current_date] after rows
    that all pass the filter. *)
Definition most_recent_date (rows : list Bs4.PageElement) : Py.value :=
  from_option Py.Str Py.None_ (last (omap declared_date rows)).

(** The five columns read with the ["N/A"] default: dict key and cell class. *)
Definition defaulted_columns : list (string * string) :=
  [ ("time", "calendar__time"); ("currency", "calendar__currency");
    ("event", "calendar__event"); ("forecast", "calendar__forecast");
    ("previous", "calendar__previous") ]%string.

Definition event_keys : list string :=
  [ "date"; "time"; "currency"; "event"; "forecast"; "previous" ]%string.

(** The loop as a function of the high-impact rows and the date carried
    into them. *)
Fixpoint events_from (d : Py.value) (rows : list Bs4.PageElement) : list event :=
  match rows with
  | [] => []
  | row :: rows' =>
      let d' := next_date d row in news_item d' row :: events_from d' rows'
  end.

(** A value that, when it is a string, has no whitespace at either end. *)
Definition stripped_value (v : Py.value) : Prop :=
  ∀ s, v = Py.Str s → no_outer_space s.

(** The fetch reaches a parsed document [soup]. *)
Definition fetch_parses (cfg : config) (net : web) (user_agent : string)
  (soup : Bs4.PageElement) : Prop :=
  ∃ base_url response,
    config_get cfg "forex_factory" "base_url" = Ok base_url
    ∧ requests_get net base_url {[ "User-Agent" := user_agent ]} = Ok response
    ∧ Requests.raise_for_status response = Ok tt
    ∧ BeautifulSoup net (Requests.text response) = Ok soup.

(** The fetch fails with [e]: the address is not configured, the request
    fails, the status is an error, or the parser rejects the page. *)
Inductive fetch_fails (cfg : config) (net : web) (user_agent : string)
  (e : Py.exn) : Prop :=
| fails_config :
    config_get cfg "forex_factory" "base_url" = Raise e →
    fetch_fails cfg net user_agent e
| fails_network base_url :
    config_get cfg "forex_factory" "base_url" = Ok base_url →
    requests_get net base_url {[ "User-Agent" := user_agent ]} = Raise e →
    fetch_fails cfg net user_agent e
| fails_status base_url response :
    config_get cfg "forex_factory" "base_url" = Ok base_url →
    requests_get net base_url {[ "User-Agent" := user_agent ]} = Ok response →
    Requests.raise_for_status response = Raise e →
    fetch_fails cfg net user_agent e
| fails_parse base_url response :
    config_get cfg "forex_factory" "base_url" = Ok base_url →
    requests_get net base_url {[ "User-Agent" := user_agent ]} = Ok response →
    Requests.raise_for_status response = Ok tt →
    BeautifulSoup net (Requests.text response) = Raise e →
    fetch_fails cfg net user_agent e.

(** The world after one more printed line. *)
Definition printed (w : world) (line : string) : world :=
  World (stdout w ++ [line]) (posted w).

(** The world after one more comment on a card. *)
Definition commented (w : world) (card : Trello.Card) (text : string) : world :=
  World (stdout w) (posted w ++ [(Trello.card_id card, text)]).

(** [line] is the table row of [item]: its six fields in column order
    between pipes, and a line end. *)
Definition is_table_row (item : event) (line : string) : Prop :=
  ∃ d t c e f p,
    item !! "date" = Some d ∧ item !! "time" = Some t
    ∧ item !! "currency" = Some c ∧ item !! "event" = Some e
    ∧ item !! "forecast" = Some f ∧ item !! "previous" = Some p
    ∧ line = "| " +:+ Py.str d +:+ " | " +:+ Py.str t +:+ " | " +:+ Py.str c
             +:+ " | " +:+ Py.str e +:+ " | " +:+ Py.str f +:+ " | " +:+ Py.str p
             +:+ " |" +:+ newline.

(** One of the characters 0 to 9. *)
Definition is_digit (c : ascii) : bool :=
  (48 <=? nat_of_ascii c) && (nat_of_ascii c <=? 57).

(** [s] is [n] decimal digits. *)
Definition digits (s : string) (n : nat) : bool :=
  (length (String.list_ascii_of_string s) =? n)
  && forallb is_digit (String.list_ascii_of_string s).

(** The number that a string of decimal digits writes. *)
Definition decimal (s : string) : Z :=
  fold_left (λ acc c, (10 * acc + (Z.of_nat (nat_of_ascii c) - 48))%Z)
            (String.list_ascii_of_string s) 0%Z.

(** [s] is the number [n] written with [k] decimal digits. *)
Definition writes (s : string) (k : nat) (n : Z) : bool :=
  digits s k && (decimal s =? n)%Z.

(** [s] shows the date and time [now] as YYYY-MM-DD HH:MM:SS: the year in
    four digits, then month, day, hour (of 24), minute and second in two
    digits each. *)
Definition shows_time (now : datetime) (s : string) : Prop :=
  ∃ Y m d H M S,
    s = Y +:+ "-" +:+ m +:+ "-" +:+ d +:+ " " +:+ H +:+ ":" +:+ M +:+ ":" +:+ S
    ∧ writes Y 4 (year now) = true ∧ writes m 2 (month now) = true
    ∧ writes d 2 (day now) = true ∧ writes H 2 (hour now) = true
    ∧ writes M 2 (minute now) = true ∧ writes S 2 (second now) = true.

(** A date and time of the years 1000 to 9999. *)
Definition four_digit_year (now : datetime) : Prop :=
  (1000 ≤ year now ≤ 9999 ∧ 1 ≤ month now ≤ 12 ∧ 1 ≤ day now ≤ 31
   ∧ 0 ≤ hour now < 24 ∧ 0 ≤ minute now < 60 ∧ 0 ≤ second now < 60)%Z.

(** The heading and the table head of the comment. *)
Definition heading : string := "# High Impact Forex News Events" +:+ newline.
Definition table_head : string :=
  "| Date | Time | Currency | Event | Forecast | Previous |" +:+ newline
  +:+ "|------|------|----------|--------|----------|----------|" +:+ newline.

(** ** Sample documents and services *)

Module Sample.
Import Bs4.

Definition cell (cls txt : string) : PageElement :=
  Tag "td" [("class", AttrList [cls])] [NavigableString txt].

(** An impact cell as the calendar page draws it: an icon whose class and
    title name the level, and no text. *)
Definition impact_cell (level title : string) : PageElement :=
  Tag "td" [("class", AttrList ["impact"])]
      [Tag "span" [("title", AttrStr title); ("class", AttrList [level])] []].

Definition calendar_row (cells : list PageElement) : PageElement :=
  Tag "tr" [("class", AttrList ["calendar_row"])] cells.

Definition page (rows : list PageElement) : PageElement :=
  Tag "table" [("class", AttrList ["calendar__table"])] rows.

Definition row_cpi : PageElement :=
  calendar_row
    [ cell "calendar__date" "Jan 4"; impact_cell "high" "High Impact Expected";
      cell "calendar__time" "8:30am"; cell "calendar__currency" "USD";
      cell "calendar__event" "CPI m/m"; cell "calendar__forecast" "0.3%";
      cell "calendar__previous" "0.2%" ].

Definition row_pmi_low : PageElement :=
  calendar_row
    [ cell "calendar__date" "Jan 5"; impact_cell "low" "Low Impact Expected";
      cell "calendar__time" "9:45am"; cell "calendar__currency" "USD";
      cell "calendar__event" "Flash PMI"; cell "calendar__forecast" "52.1";
      cell "calendar__previous" "51.9" ].

(** No date cell and no forecast cell. *)
Definition row_nfp : PageElement :=
  calendar_row
    [ impact_cell "high" "High Impact Expected";
      cell "calendar__time" " 8:30am "; cell "calendar__currency" "USD";
      cell "calendar__event" "Non-Farm Payrolls";
      cell "calendar__previous" "180K" ].

(** A forecast cell that holds only blanks. *)
Definition row_blank_forecast : PageElement :=
  calendar_row
    [ cell "calendar__date" "Jan 5"; impact_cell "high" "High Impact Expected";
      cell "calendar__time" "10:00am"; cell "calendar__currency" "EUR";
      cell "calendar__event" "ECB Press Conference";
      cell "calendar__forecast" "  "; cell "calendar__previous" EmptyString ].

Definition soup_three : PageElement := page [row_cpi; row_pmi_low; row_nfp].
Definition soup_two : PageElement := page [row_cpi; row_nfp].
Definition soup_low : PageElement := page [row_pmi_low].
Definition soup_icon : PageElement := page [row_nfp].
Definition soup_blank : PageElement := page [row_blank_forecast].

End Sample.

Module SampleWorld.

Definition cfg : config :=
  {[ "forex_factory" :=
       ({[ "base_url" := "https://www.forexfactory.com/calendar";
           "user_agent" := "Mozilla/5.0" ]} : gmap string string);
     "trello" :=
       ({[ "board_id" := "b1"; "list_name" := "News"; "card_name" := "Forex" ]}
          : gmap string string) ]}.

(** The same file without the [user_agent] setting. *)
Definition cfg_no_agent : config :=
  {[ "forex_factory" :=
       ({[ "base_url" := "https://www.forexfactory.com/calendar" ]}
          : gmap string string);
     "trello" :=
       ({[ "board_id" := "b1"; "list_name" := "News"; "card_name" := "Forex" ]}
          : gmap string string) ]}.

Definition response (status : Z) (reason : string) : Requests.Response :=
  {| Requests.status_code := status; Requests.reason := reason;
     Requests.url := "https://www.forexfactory.com/calendar";
     Requests.text := "<html></html>" |}.

(** A site that answers 200 and parses to [soup]. *)
Definition net_ok (soup : Bs4.PageElement) : web :=
  {| requests_get := λ _ _, Ok (response 200%Z "OK");
     BeautifulSoup := λ _, Ok soup |}.

(** A site that answers 500. *)
Definition net_500 : web :=
  {| requests_get := λ _ _, Ok (response 500%Z "Internal Server Error");
     BeautifulSoup := λ _, Ok (Sample.page []) |}.

Definition w0 : world := World [] [].

Definition list_todo : Trello.List := {| Trello.list_id := "l1"; Trello.list_name := "To do" |}.
Definition list_news : Trello.List := {| Trello.list_id := "l2"; Trello.list_name := "News" |}.
Definition list_news' : Trello.List := {| Trello.list_id := "l3"; Trello.list_name := "News" |}.
Definition card_other : Trello.Card := {| Trello.card_id := "c1"; Trello.card_name := "Stocks" |}.
Definition card_forex : Trello.Card := {| Trello.card_id := "c2"; Trello.card_name := "Forex" |}.
Definition card_forex' : Trello.Card := {| Trello.card_id := "c3"; Trello.card_name := "Forex" |}.

(** A board with the given lists; every list holds the given cards. *)
Definition api (lists : list Trello.List) (cards : list Trello.Card) : Trello.client :=
  {| Trello.get_board := λ id, Ok {| Trello.board_id := id |};
     Trello.list_lists := λ _, Ok lists;
     Trello.list_cards := λ _, Ok cards;
     Trello.add_comment := λ _ _, Ok tt |}.

(** A board where two lists and two cards have the configured names. *)
Definition api_twice : Trello.client :=
  api [list_todo; list_news; list_news'] [card_other; card_forex; card_forex'].

Definition now : datetime :=
  {| year := 2026; month := 1; day := 5; hour := 9; minute := 3; second := 59 |}%Z.

End SampleWorld.

(** ** Start of the process: [__init__] and [_load_config] (lines 11-28) *)

(** What the process finds when it starts: the file [config.yml] (its
    text, or the error of [open]), the YAML parser on that text, for
    documents that are sections of string settings, and the environment
    after [load_dotenv()]. *)
Record host : Type := {
  open_config : outcome string;
  yaml_safe_load : string → outcome config;
  getenv : string → option string
}.

Definition _load_config (h : host) : outcome config :=
  (file <-? open_config h ;; yaml_safe_load h file)%py.

(** The object [__init__] builds: [self.config] and [self.trello]. *)
Record ForexTrelloIntegration : Type := {
  self_config : config;
  self_trello : Trello.client
}.

(** [TrelloClient] stands for the constructor of py-trello: the service as
    seen with the three credentials, each of which may be [None]. *)
Definition __init__ (h : host)
  (TrelloClient : option string → option string → option string → Trello.client)
  : outcome ForexTrelloIntegration :=
  (config <-? _load_config h ;;
   Ok {| self_config := config;
         self_trello := TrelloClient (getenv h "TRELLO_API_KEY")
                                     (getenv h "TRELLO_API_SECRET")
                                     (getenv h "TRELLO_TOKEN") |})%py.

(** [main()] from its first line, [integration = ForexTrelloIntegration()]. *)
Definition main_process (h : host)
  (TrelloClient : option string → option string → option string → Trello.client)
  (net : web) (now : datetime) : M unit :=
  (integration <- lift (__init__ h TrelloClient) ;;
   main (self_config integration) net (self_trello integration) now)%py.

(** ** More notions for the statements *)

(** An event dict with the six keys the formatter reads. *)
Definition has_all_keys (item : event) : Prop :=
  Forall (λ key, is_Some (item !! key)) event_keys.

(** The first key, in the order the formatter reads them, that [item]
    lacks. *)
Definition first_missing_key (item : event) : option string :=
  List.find (λ key, match item !! key with None => true | Some _ => false end)
            event_keys.

(** A date value that is not the empty string. *)
Definition date_value_ok (d : Py.value) : Prop := d ≠ Py.Str EmptyString.

(** A value that is a string. *)
Definition is_str (v : Py.value) : bool :=
  match v with Py.Str _ => true | Py.None_ => false end.

Module SampleMore.

Definition item_full : event :=
  {[ "date" := Py.Str "Jan 4"; "time" := Py.Str "8:30am";
     "currency" := Py.Str "USD"; "event" := Py.Str "CPI m/m";
     "forecast" := Py.Str "0.3%"; "previous" := Py.Str "0.2%" ]}.

(** An event dict without the keys [forecast] and [previous]. *)
Definition item_short : event :=
  {[ "date" := Py.Str "Jan 5"; "time" := Py.Str "8:30am";
     "currency" := Py.Str "USD"; "event" := Py.Str "Non-Farm Payrolls" ]}.

(** A configuration file without the [trello] section. *)
Definition cfg_no_trello : config :=
  {[ "forex_factory" :=
       ({[ "base_url" := "https://www.forexfactory.com/calendar";
           "user_agent" := "Mozilla/5.0" ]} : gmap string string) ]}.

Definition unauthorized : Py.exn :=
  Py.Exception "Unauthorized" "invalid token at https://api.trello.com/1/boards/b1".

(** A service that rejects the credentials at the first call. *)
Definition api_down : Trello.client :=
  {| Trello.get_board := λ _, Raise unauthorized;
     Trello.list_lists := λ _, Ok [];
     Trello.list_cards := λ _, Ok [];
     Trello.add_comment := λ _ _, Ok tt |}.

Definition no_file : Py.exn :=
  Py.Exception "FileNotFoundError" "[Errno 2] No such file or directory: 'config.yml'".

(** A run directory without [config.yml] and with no credentials set. *)
Definition host_no_file : host :=
  {| open_config := Raise no_file;
     yaml_safe_load := λ _, Ok SampleWorld.cfg;
     getenv := λ _, None |}.

(** A page whose first high-impact row has no date cell. *)
Definition soup_undated_first : Bs4.PageElement :=
  Sample.page [Sample.row_pmi_low; Sample.row_nfp; Sample.row_cpi].

End SampleMore.

(** ** Strings *)

Section Strings.

Lemma append_cons c (s t : string) : String c s +:+ t = String c (s +:+ t).
Proof. reflexivity. Qed.

Lemma append_nil_l (s : string) : EmptyString +:+ s = s.
Proof. reflexivity. Qed.

Lemma append_nil_r (s : string) : s +:+ EmptyString = s.
Proof. induction s as [|c s IH]; [done | by rewrite append_cons, IH]. Qed.

Lemma append_assoc (a b c : string) : (a +:+ b) +:+ c = a +:+ (b +:+ c).
Proof. induction a as [|x a IH]; [done | by rewrite !append_cons, IH]. Qed.

Lemma prefix_occurs (n h : string) :
  String.prefix n h = true ↔ ∃ after, h = n +:+ after.
Proof.
  revert h. induction n as [|c n IH]; intros h.
  - split; [intros _; by exists h | by destruct h].
  - destruct h as [|d h]; simpl.
    + split; [done | intros [after H]; discriminate].
    + destruct (ascii_dec c d) as [->|Hne].
      * rewrite IH. split; intros [after H]; exists after;
          rewrite ?append_cons in *; congruence.
      * split; [done | intros [after H]; rewrite append_cons in H; congruence].
Qed.

Lemma contains_nil (n : string) :
  Py.contains n EmptyString = String.prefix n EmptyString.
Proof. unfold Py.contains. by destruct (String.prefix n EmptyString). Qed.

Lemma contains_cons (n : string) c h :
  Py.contains n (String c h) = String.prefix n (String c h) || Py.contains n h.
Proof.
  change (Py.contains n (String c h))
    with (if String.prefix n (String c h) then true else Py.contains n h).
  by destruct (String.prefix n (String c h)).
Qed.

Lemma contains_occurs (n h : string) :
  Py.contains n h = true ↔ occurs_in n h.
Proof.
  unfold occurs_in. split.
  - induction h as [|c h IH].
    + rewrite contains_nil. intros E.
      apply prefix_occurs in E as [after E]. by exists EmptyString, after.
    + rewrite contains_cons. intros [E|H]%orb_true_iff.
      * apply prefix_occurs in E as [after E]. by exists EmptyString, after.
      * destruct (IH H) as (before & after & ->).
        by exists (String c before), after.
  - intros (before & after & ->). induction before as [|c before IH].
    + rewrite append_nil_l.
      assert (String.prefix n (n +:+ after) = true) as E
        by (apply prefix_occurs; by exists after).
      destruct (n +:+ after); [by rewrite contains_nil|].
      by rewrite contains_cons, E.
    + rewrite append_cons, contains_cons, IH. apply orb_true_r.
Qed.

Lemma lstrip_head (s : string) c t :
  Py.lstrip s = String c t → Py.isspace c = false.
Proof.
  induction s as [|d s IH]; simpl; [done|].
  destruct (Py.isspace d) eqn:E; [done|]. congruence.
Qed.

Lemma rstrip_head c (t : string) :
  Py.isspace c = false → ∃ t', Py.rstrip (String c t) = String c t'.
Proof.
  intros E. simpl. destruct (Py.rstrip t); rewrite ?E; eauto.
Qed.

Lemma rstrip_last (s : string) c t :
  Py.rstrip s = t +:+ String c EmptyString → Py.isspace c = false.
Proof.
  revert t. induction s as [|d s IH]; intros t; simpl.
  - by destruct t.
  - destruct (Py.rstrip s) as [|e r] eqn:E.
    + destruct (Py.isspace d) eqn:Ed; [by destruct t|].
      destruct t as [|x t]; rewrite ?append_cons, ?append_nil_l; [congruence|].
      intros H. injection H as _ H. by destruct t.
    + destruct t as [|x t]; rewrite ?append_cons, ?append_nil_l; [done|].
      intros H. injection H as _ H. by apply (IH t).
Qed.

Lemma strip_no_outer_space (s : string) : no_outer_space (Py.strip s).
Proof.
  unfold Py.strip. split.
  - intros c t H. destruct (Py.lstrip s) as [|d u] eqn:E; [done|].
    pose proof (lstrip_head _ _ _ E) as Hd.
    destruct (rstrip_head d u Hd) as [t' Ht']. congruence.
  - intros c t H. by eapply rstrip_last.
Qed.

Lemma lstrip_all_space (s : string) : all_space s = true → Py.lstrip s = EmptyString.
Proof.
  induction s as [|c s IH]; simpl; [done|].
  destruct (Py.isspace c); simpl; [done | discriminate].
Qed.

Lemma strip_all_space (s : string) : all_space s = true → Py.strip s = EmptyString.
Proof. intros H. unfold Py.strip. by rewrite lstrip_all_space. Qed.

End Strings.

(** ** The row scan *)

Section Scan.

Implicit Types (row : Bs4.PageElement) (rows : list Bs4.PageElement).
Implicit Types (st : scan_state) (d : Py.value).

Lemma scan_row_high st row :
  is_high_impact row = true →
  scan_row st row =
    ScanState (next_date (current_date st) row)
              (news_items st ++ [news_item (next_date (current_date st) row) row]).
Proof. intros H. unfold scan_row. by rewrite H. Qed.

Lemma scan_row_other st row : is_high_impact row = false → scan_row st row = st.
Proof. intros H. unfold scan_row. by rewrite H. Qed.

(** The loop as a function of the high-impact rows alone. *)
Lemma scan_fold rows st :
  fold_left scan_row rows st =
    ScanState (fold_left next_date (List.filter is_high_impact rows) (current_date st))
              (news_items st
                 ++ events_from (current_date st) (List.filter is_high_impact rows)).
Proof.
  revert st. induction rows as [|row rows IH]; intros st; simpl.
  - rewrite app_nil_r. by destruct st.
  - destruct (is_high_impact row) eqn:E.
    + rewrite IH, (scan_row_high _ _ E). simpl. by rewrite <- app_assoc.
    + by rewrite IH, (scan_row_other _ _ E).
Qed.

Lemma scan_rows_events rows :
  scan_rows rows = events_from Py.None_ (List.filter is_high_impact rows).
Proof. unfold scan_rows. by rewrite scan_fold. Qed.

Lemma events_from_length d rows : length (events_from d rows) = length rows.
Proof. revert d. induction rows; intros d; simpl; [done | by rewrite IHrows]. Qed.

Lemma events_from_app d rows1 rows2 :
  events_from d (rows1 ++ rows2) =
    events_from d rows1 ++ events_from (fold_left next_date rows1 d) rows2.
Proof.
  revert d. induction rows1 as [|r rows1 IH]; intros d; simpl; [done|].
  by rewrite IH.
Qed.

Lemma next_date_declared d row :
  next_date d row = from_option Py.Str d (declared_date row).
Proof.
  unfold next_date, declared_date.
  destruct (Bs4.find row "td" "calendar__date"); [|done].
  by destruct (Py.truthy _).
Qed.

Lemma fold_next_date d rows :
  fold_left next_date rows d = from_option Py.Str d (last (omap declared_date rows)).
Proof.
  revert d. induction rows as [|r rows IH]; intros d; simpl; [done|].
  rewrite IH, next_date_declared.
  destruct (declared_date r) as [x|]; simpl; [|done].
  rewrite last_cons. by destruct (last _).
Qed.

Lemma omap_declared_none rows :
  Forall (λ r, declared_date r = None) rows → omap declared_date rows = [].
Proof. induction 1 as [|r rows H _ IH]; simpl; [done|]. by rewrite H. Qed.

Lemma most_recent_date_split earlier dated later date :
  declared_date dated = Some date →
  Forall (λ r, declared_date r = None) later →
  most_recent_date (earlier ++ dated :: later) = Py.Str date.
Proof.
  intros Hd Hlater. unfold most_recent_date.
  rewrite omap_app.
  assert (omap declared_date (dated :: later) = [date]) as ->.
  { change (omap declared_date (dated :: later))
      with (match declared_date dated with
            | Some y => y :: omap declared_date later
            | None => omap declared_date later
            end).
    by rewrite Hd, (omap_declared_none _ Hlater). }
  by rewrite last_snoc.
Qed.

(** The event of a high-impact row: where it is in the output and what
    it holds. *)
Lemma scan_rows_lookup before row after :
  is_high_impact row = true →
  scan_rows (before ++ row :: after) !! length (List.filter is_high_impact before)
  = Some (news_item
            (most_recent_date (List.filter is_high_impact (before ++ [row]))) row).
Proof.
  intros H. rewrite scan_rows_events, List.filter_app. simpl. rewrite H.
  rewrite events_from_app. simpl.
  rewrite lookup_app_r by (rewrite events_from_length; lia).
  rewrite events_from_length, Nat.sub_diag. simpl. f_equal. f_equal.
  unfold most_recent_date. rewrite List.filter_app. simpl. rewrite H.
  rewrite <- (fold_next_date Py.None_), fold_left_app. done.
Qed.

Lemma events_from_rows d rows :
  Forall2 (λ row ev, ∃ d', ev = news_item d' row) rows (events_from d rows).
Proof.
  revert d. induction rows as [|r rows IH]; intros d; simpl; constructor; eauto.
Qed.

End Scan.

Section Fields.

Implicit Types (row : Bs4.PageElement) (d : Py.value).

Lemma news_item_date d row : news_item d row !! "date" = Some d.
Proof. unfold news_item. by simplify_map_eq. Qed.

Lemma news_item_column d row key cls :
  (key, cls) ∈ defaulted_columns →
  news_item d row !! key = Some (text_or_na (Bs4.find row "td" cls)).
Proof.
  unfold defaulted_columns. rewrite !elem_of_cons, elem_of_nil.
  intros H. unfold news_item.
  repeat (destruct H as [H|H]; [injection H as -> ->; by simplify_map_eq|]).
  done.
Qed.

Lemma news_item_keys d row key :
  is_Some (news_item d row !! key) ↔ key ∈ event_keys.
Proof.
  unfold event_keys. rewrite !elem_of_cons, elem_of_nil. split.
  - intros [v Hv]. unfold news_item in Hv.
    repeat (rewrite lookup_insert in Hv; case_decide; [naive_solver|]).
    apply lookup_singleton_Some in Hv as [<- _]. eauto 10.
  - intros H. unfold news_item.
    repeat (destruct H as [H|H]; [subst; by simplify_map_eq|]). done.
Qed.

End Fields.

Section Stripped.

Lemma text_or_na_stripped cell : stripped_value (text_or_na cell).
Proof.
  intros s. destruct cell as [c|]; simpl; intros [= <-].
  - apply strip_no_outer_space.
  - change "N/A" with (Py.strip "N/A"). apply strip_no_outer_space.
Qed.

Lemma next_date_stripped d row : stripped_value d → stripped_value (next_date d row).
Proof.
  intros Hd. unfold next_date.
  destruct (Bs4.find row "td" "calendar__date"); [|done].
  destruct (Py.truthy _); [|done].
  intros s [= <-]. apply strip_no_outer_space.
Qed.

Lemma news_item_stripped d row key v :
  stripped_value d → news_item d row !! key = Some v → stripped_value v.
Proof.
  intros Hd Hv.
  assert (key ∈ event_keys) as Hk by (eapply news_item_keys; eauto).
  unfold event_keys in Hk. rewrite !elem_of_cons, elem_of_nil in Hk.
  destruct Hk as [->|Hk]; [rewrite news_item_date in Hv; by injection Hv as <-|].
  assert (∃ cls, (key, cls) ∈ defaulted_columns) as [cls Hin].
  { unfold defaulted_columns.
    destruct Hk as [->|[->|[->|[->|[->|[]]]]]];
      eexists; rewrite !elem_of_cons; eauto 10. }
  rewrite (news_item_column _ _ _ _ Hin) in Hv. injection Hv as <-.
  apply text_or_na_stripped.
Qed.

Lemma events_from_stripped d rows ev key v :
  stripped_value d → ev ∈ events_from d rows → ev !! key = Some v → stripped_value v.
Proof.
  revert d. induction rows as [|row rows IH]; intros d Hd; simpl.
  - by intros ?%elem_of_nil.
  - intros [->|Hin]%elem_of_cons Hv.
    + eapply news_item_stripped; [|done]. by apply next_date_stripped.
    + eapply IH; [|done..]. by apply next_date_stripped.
Qed.

End Stripped.

(** ** The fetch *)

Section Fetch.

Variables (cfg : config) (net : web) (user_agent : string).
Hypothesis agent_configured :
  config_get cfg "forex_factory" "user_agent" = Ok user_agent.

Lemma fetch_success soup w :
  fetch_parses cfg net user_agent soup →
  get_high_impact_news cfg net w = (Ok (parse_news soup), w).
Proof.
  intros (base_url & response & Hurl & Hget & Hstatus & Hsoup).
  unfold get_high_impact_news, bind, try_except, lift, ret.
  by rewrite agent_configured, Hurl, Hget, Hstatus, Hsoup.
Qed.

Lemma fetch_failure e w :
  fetch_fails cfg net user_agent e →
  get_high_impact_news cfg net w
  = (Ok [], printed w ("Error fetching forex data: " +:+ Py.str_exn e)).
Proof.
  intros H. unfold get_high_impact_news, bind, try_except, lift, ret, print, printed.
  rewrite agent_configured.
  destruct H as [Hurl|url Hurl Hget|url r Hurl Hget Hst|url r Hurl Hget Hst Hsoup];
    rewrite Hurl; try rewrite Hget; try rewrite Hst; try rewrite Hsoup; done.
Qed.

Lemma fetch_outcome :
  (∃ soup, fetch_parses cfg net user_agent soup) ∨ (∃ e, fetch_fails cfg net user_agent e).
Proof.
  destruct (config_get cfg "forex_factory" "base_url") as [url|e] eqn:Hurl;
    [|right; exists e; by constructor].
  destruct (requests_get net url {[ "User-Agent" := user_agent ]}) as [r|e] eqn:Hget;
    [|right; exists e; by econstructor 2].
  destruct (Requests.raise_for_status r) as [[]|e] eqn:Hst;
    [|right; exists e; by econstructor 3].
  destruct (BeautifulSoup net (Requests.text r)) as [soup|e] eqn:Hsoup;
    [|right; exists e; by econstructor 4].
  left. exists soup, url, r. by rewrite Hurl.
Qed.

End Fetch.

Lemma raise_for_status_error (r : Requests.Response) :
  (400 ≤ Requests.status_code r < 600)%Z → ∃ e, Requests.raise_for_status r = Raise e.
Proof.
  intros H. unfold Requests.raise_for_status.
  destruct (Requests.status_code r <? 500)%Z eqn:E.
  - replace (400 <=? Requests.status_code r)%Z with true
      by (symmetry; apply Z.leb_le; lia). simpl. eauto.
  - apply Z.ltb_ge in E.
    replace (500 <=? Requests.status_code r)%Z with true
      by (symmetry; apply Z.leb_le; lia).
    replace (Requests.status_code r <? 600)%Z with true
      by (symmetry; apply Z.ltb_lt; lia).
    rewrite andb_false_r. simpl. eauto.
Qed.

Lemma no_high_impact_rows rows :
  Forall (λ row, is_high_impact row = false) rows →
  List.filter is_high_impact rows = [].
Proof.
  induction 1 as [|row rows H _ IH]; simpl; [done|]. by rewrite H.
Qed.

Lemma parse_news_empty soup :
  Forall (λ row, is_high_impact row = false) (calendar_rows soup) →
  parse_news soup = [].
Proof.
  intros H. unfold parse_news. by rewrite scan_rows_events, no_high_impact_rows.
Qed.

(** ** The board update *)

Section FirstNamed.

Context {A : Type} (name : A → string).

Lemma first_named_none wanted l :
  Forall (λ x, name x ≠ wanted) l → first_named name (Ok wanted) l = Ok None.
Proof.
  induction 1 as [|x l Hx _ IH]; simpl; [done|].
  apply String.eqb_neq in Hx. by rewrite Hx.
Qed.

Lemma first_named_first wanted l1 x l2 :
  Forall (λ y, name y ≠ wanted) l1 → name x = wanted →
  first_named name (Ok wanted) (l1 ++ x :: l2) = Ok (Some x).
Proof.
  intros Hl1 Hx. induction Hl1 as [|y l1 Hy _ IH]; simpl.
  - apply String.eqb_eq in Hx. by rewrite Hx.
  - apply String.eqb_neq in Hy. by rewrite Hy.
Qed.

End FirstNamed.

Section Update.

Variables (cfg : config) (api : Trello.client) (comment_text : string) (w : world).

Lemma update_returns :
  ∃ w', update_trello_card cfg api comment_text w = (Ok tt, w')
        ∧ ((∃ card, w' = printed (commented w card comment_text)
                           "Successfully updated Trello card with forex news")
           ∨ (∃ e, w' = printed w ("Error updating Trello card: " +:+ Py.str_exn e))).
Proof.
  unfold update_trello_card, try_except, bind, lift, raise, print, Trello.comment,
    printed, commented.
  destruct (config_get cfg "trello" "board_id") as [id|e]; [|eauto 10].
  destruct (Trello.get_board api id) as [board|e]; [|eauto 10].
  destruct (Trello.list_lists api board) as [lists|e]; [|eauto 10].
  destruct (first_named _ _ lists) as [[trello_list|]|e]; [| |eauto 10].
  - destruct (Trello.list_cards api trello_list) as [cards|e]; [|eauto 10].
    destruct (first_named _ _ cards) as [[card|]|e]; [| |eauto 10].
    + destruct (Trello.add_comment api card comment_text) as [[]|e]; eauto 10.
    + destruct (config_get cfg "trello" "card_name"); eauto 10.
  - destruct (config_get cfg "trello" "list_name"); eauto 10.
Qed.

Variables (id list_name card_name : string) (board : Trello.Board)
  (lists : list Trello.List).
Hypothesis board_configured : config_get cfg "trello" "board_id" = Ok id.
Hypothesis list_configured : config_get cfg "trello" "list_name" = Ok list_name.
Hypothesis card_configured : config_get cfg "trello" "card_name" = Ok card_name.
Hypothesis board_found : Trello.get_board api id = Ok board.
Hypothesis lists_found : Trello.list_lists api board = Ok lists.

Lemma update_list_missing :
  Forall (λ l, Trello.list_name l ≠ list_name) lists →
  update_trello_card cfg api comment_text w
  = (Ok tt, printed w ("Error updating Trello card: List '" +:+ list_name
                         +:+ "' not found")).
Proof.
  intros H.
  unfold update_trello_card, try_except, bind, lift, raise, print, printed.
  rewrite board_configured, board_found, lists_found, list_configured.
  by rewrite (first_named_none _ _ _ H).
Qed.

Variables (lists1 lists2 : list Trello.List) (trello_list : Trello.List)
  (cards : list Trello.Card).
Hypothesis lists_split : lists = lists1 ++ trello_list :: lists2.
Hypothesis list_first : Forall (λ l, Trello.list_name l ≠ list_name) lists1.
Hypothesis list_named : Trello.list_name trello_list = list_name.
Hypothesis cards_found : Trello.list_cards api trello_list = Ok cards.

Lemma update_card_missing :
  Forall (λ c, Trello.card_name c ≠ card_name) cards →
  update_trello_card cfg api comment_text w
  = (Ok tt, printed w ("Error updating Trello card: Card '" +:+ card_name
                         +:+ "' not found")).
Proof.
  intros H.
  unfold update_trello_card, try_except, bind, lift, raise, print, printed.
  rewrite board_configured, board_found, lists_found, list_configured, lists_split.
  rewrite (first_named_first _ _ _ _ _ list_first list_named).
  rewrite cards_found, card_configured.
  by rewrite (first_named_none _ _ _ H).
Qed.

Lemma update_first_card cards1 card cards2 :
  cards = cards1 ++ card :: cards2 →
  Forall (λ c, Trello.card_name c ≠ card_name) cards1 →
  Trello.card_name card = card_name →
  Trello.add_comment api card comment_text = Ok tt →
  update_trello_card cfg api comment_text w
  = (Ok tt, printed (commented w card comment_text)
              "Successfully updated Trello card with forex news").
Proof.
  intros -> Hfirst Hname Hok.
  unfold update_trello_card, try_except, bind, lift, raise, print, printed,
    commented, Trello.comment.
  rewrite board_configured, board_found, lists_found, list_configured, lists_split.
  rewrite (first_named_first _ _ _ _ _ list_first list_named).
  rewrite cards_found, card_configured.
  rewrite (first_named_first _ _ _ _ _ Hfirst Hname).
  by rewrite Hok.
Qed.

End Update.

(** ** The formatter *)

Section Format.

Lemma format_rows_lines items lines comment :
  Forall2 is_table_row items lines →
  format_rows comment items = Ok (comment +:+ Py.concat lines).
Proof.
  intros H. revert comment.
  induction H as [|item line items lines Hrow _ IH]; intros comment; simpl.
  - by rewrite append_nil_r.
  - destruct Hrow as (d & t & c & e & f & p & Hd & Ht & Hc & He & Hf & Hp & ->).
    unfold getitem. rewrite Hd, Ht, Hc, He, Hf, Hp. simpl.
    rewrite IH. f_equal. rewrite !append_assoc. done.
Qed.

Lemma writes_range (f : Z → string) k (lo : Z) (len : nat) :
  forallb (λ i, writes (f (lo + Z.of_nat i)%Z) k (lo + Z.of_nat i)) (seq 0 len) = true →
  ∀ n, (lo ≤ n < lo + Z.of_nat len)%Z → writes (f n) k n = true.
Proof.
  intros H n Hn. rewrite forallb_forall in H.
  replace n with (lo + Z.of_nat (Z.to_nat (n - lo)))%Z by lia.
  apply H, in_seq. lia.
Qed.

Lemma year_written n : (1000 ≤ n ≤ 9999)%Z → writes (Py.str_int n) 4 n = true.
Proof.
  intros H. apply (writes_range Py.str_int 4 1000 (Z.to_nat 9000));
    [by vm_compute | lia].
Qed.

Lemma zfill2_written n : (0 ≤ n < 100)%Z → writes (zfill2 n) 2 n = true.
Proof.
  intros H. apply (writes_range zfill2 2 0 100); [by vm_compute | lia].
Qed.

Lemma strftime_shows_time now : four_digit_year now → shows_time now (strftime now).
Proof.
  intros (Hy & Hm & Hd & HH & HM & HS).
  exists (Py.str_int (year now)), (zfill2 (month now)), (zfill2 (day now)),
    (zfill2 (hour now)), (zfill2 (minute now)), (zfill2 (second now)).
  split; [done|].
  rewrite year_written by done. rewrite !zfill2_written by lia. done.
Qed.

End Format.

Lemma news_item_table_row d row : ∃ line, is_table_row (news_item d row) line.
Proof.
  unfold is_table_row. do 7 eexists. split; [apply news_item_date|].
  repeat (split; [apply news_item_column; unfold defaulted_columns;
                  rewrite !elem_of_cons; eauto 10|]).
  done.
Qed.

Lemma events_from_table_rows d rows :
  ∃ lines,
    Forall2 is_table_row (events_from d rows) lines
    ∧ Forall2 (λ row line, ∃ d', is_table_row (news_item d' row) line) rows lines.
Proof.
  revert d. induction rows as [|row rows IH]; intros d; simpl.
  - exists []. by split.
  - destruct (IH (next_date d row)) as (lines & H1 & H2).
    destruct (news_item_table_row (next_date d row) row) as [line Hline].
    exists (line :: lines). split; constructor; eauto.
Qed.

(** ** The claims *)

(** *** Events of the high-impact rows

    A high-impact row [row] of the document, with the calendar rows
    [before] it: its event is the one at the index that counts the
    high-impact rows before it. *)

Section Events.

Variables (soup row : Bs4.PageElement) (before after : list Bs4.PageElement).
Hypothesis rows_split : calendar_rows soup = before ++ row :: after.
Hypothesis row_high : is_high_impact row = true.

Lemma event_of_row :
  parse_news soup !! length (List.filter is_high_impact before)
  = Some (news_item
            (most_recent_date (List.filter is_high_impact (before ++ [row]))) row).
Proof. unfold parse_news. rewrite rows_split. by apply scan_rows_lookup. Qed.

(** C1, as amended.  The [date] of the event of a high-impact row is the
    date declared by the most recent high-impact row at or before it that
    has a date cell with text in it, whether or not the row itself has
    such a cell.  The date cells of the rows that are not high-impact are
    not read. *)
Theorem date_carry_forward earlier dated later date :
  List.filter is_high_impact (before ++ [row]) = earlier ++ dated :: later →
  declared_date dated = Some date →
  Forall (λ r, declared_date r = None) later →
  ∃ ev, parse_news soup !! length (List.filter is_high_impact before) = Some ev
        ∧ ev !! "date" = Some (Py.Str date).
Proof.
  intros Hsplit Hdated Hlater. eexists. split; [apply event_of_row|].
  rewrite news_item_date, Hsplit. f_equal.
  by apply most_recent_date_split.
Qed.

(** C3, as amended.  The event of a high-impact row has all six keys, and
    each of [time], [currency], [event], [forecast] and [previous] whose
    cell is absent from the row holds the string ["N/A"]. *)
Theorem absent_column_sentinel :
  ∃ ev, parse_news soup !! length (List.filter is_high_impact before) = Some ev
        ∧ (∀ key, key ∈ event_keys → is_Some (ev !! key))
        ∧ (∀ key cls, (key, cls) ∈ defaulted_columns →
             Bs4.find row "td" cls = None → ev !! key = Some (Py.Str "N/A")).
Proof.
  eexists. split; [apply event_of_row|]. split.
  - intros key. apply news_item_keys.
  - intros key cls Hin Hnone. by rewrite (news_item_column _ _ _ _ Hin), Hnone.
Qed.

(** C9.  When the cell of one of [time], [currency], [event], [forecast]
    and [previous] is present in a high-impact row, the field is the
    stripped text of the cell, so the empty string when that text is empty
    or whitespace only: the default ["N/A"] is for an absent cell. *)
Theorem present_empty_cell :
  ∃ ev, parse_news soup !! length (List.filter is_high_impact before) = Some ev
        ∧ (∀ key cls cell, (key, cls) ∈ defaulted_columns →
             Bs4.find row "td" cls = Some cell →
             ev !! key = Some (Py.Str (Py.strip (Bs4.text cell)))
             ∧ (all_space (Bs4.text cell) = true → ev !! key = Some (Py.Str EmptyString))).
Proof.
  eexists. split; [apply event_of_row|].
  intros key cls cell Hin Hcell.
  rewrite (news_item_column _ _ _ _ Hin), Hcell. simpl. split; [done|].
  intros Hsp. by rewrite strip_all_space.
Qed.

End Events.

(** C1, as stated, fails.  Of the three calendar rows the second, which
    is not high-impact, is the most recent one with a date cell at or
    before the third: it declares "Jan 5".  The event of the third row is
    dated "Jan 4", from the first row. *)
Lemma date_carry_forward_counterexample :
  calendar_rows Sample.soup_three
    = [Sample.row_cpi; Sample.row_pmi_low] ++ Sample.row_nfp :: []
  ∧ is_high_impact Sample.row_nfp = true
  ∧ declared_date Sample.row_pmi_low = Some "Jan 5"
  ∧ declared_date Sample.row_nfp = None
  ∧ ∃ ev, parse_news Sample.soup_three
            !! length (List.filter is_high_impact [Sample.row_cpi; Sample.row_pmi_low])
          = Some ev
          ∧ ev !! "date" = Some (Py.Str "Jan 4")
          ∧ ev !! "date" ≠ Some (Py.Str "Jan 5").
Proof.
  split; [reflexivity|]. split; [reflexivity|]. split; [reflexivity|].
  split; [reflexivity|].
  eexists. split; [reflexivity|]. split; [reflexivity | discriminate].
Qed.

Lemma date_carry_forward_witness :
  calendar_rows Sample.soup_three
    = [Sample.row_cpi; Sample.row_pmi_low] ++ Sample.row_nfp :: []
  ∧ is_high_impact Sample.row_nfp = true
  ∧ List.filter is_high_impact ([Sample.row_cpi; Sample.row_pmi_low] ++ [Sample.row_nfp])
    = [] ++ Sample.row_cpi :: [Sample.row_nfp]
  ∧ declared_date Sample.row_cpi = Some "Jan 4"
  ∧ Forall (λ r, declared_date r = None) [Sample.row_nfp]
  ∧ ∃ ev, parse_news Sample.soup_three !! 1 = Some ev
          ∧ ev !! "date" = Some (Py.Str "Jan 4").
Proof.
  assert (Forall (λ r, declared_date r = None) [Sample.row_nfp]) as Hlater
    by (repeat constructor).
  split; [reflexivity|]. split; [reflexivity|]. split; [reflexivity|].
  split; [reflexivity|]. split; [exact Hlater|].
  exact (date_carry_forward Sample.soup_three Sample.row_nfp
           [Sample.row_cpi; Sample.row_pmi_low] [] eq_refl eq_refl
           [] Sample.row_cpi [Sample.row_nfp] "Jan 4" eq_refl eq_refl Hlater).
Defined.

(** C3, as stated, fails for [date]: a high-impact row without a date
    cell, below a row dated "Jan 4", gives an event dated "Jan 4". *)
Lemma absent_column_sentinel_counterexample :
  calendar_rows Sample.soup_two = [Sample.row_cpi] ++ Sample.row_nfp :: []
  ∧ is_high_impact Sample.row_nfp = true
  ∧ Bs4.find Sample.row_nfp "td" "calendar__date" = None
  ∧ ∃ ev, parse_news Sample.soup_two
            !! length (List.filter is_high_impact [Sample.row_cpi]) = Some ev
          ∧ ev !! "date" = Some (Py.Str "Jan 4")
          ∧ ev !! "date" ≠ Some (Py.Str "N/A").
Proof.
  split; [reflexivity|]. split; [reflexivity|]. split; [reflexivity|].
  eexists. split; [reflexivity|]. split; [reflexivity|]. discriminate.
Qed.

Lemma absent_column_sentinel_witness :
  calendar_rows Sample.soup_two = [Sample.row_cpi] ++ Sample.row_nfp :: []
  ∧ is_high_impact Sample.row_nfp = true
  ∧ ∃ ev, parse_news Sample.soup_two !! 1 = Some ev
          ∧ (∀ key, key ∈ event_keys → is_Some (ev !! key))
          ∧ (∀ key cls, (key, cls) ∈ defaulted_columns →
               Bs4.find Sample.row_nfp "td" cls = None →
               ev !! key = Some (Py.Str "N/A")).
Proof.
  split; [reflexivity|]. split; [reflexivity|].
  exact (absent_column_sentinel Sample.soup_two Sample.row_nfp
           [Sample.row_cpi] [] eq_refl eq_refl).
Defined.

Lemma present_empty_cell_witness :
  calendar_rows Sample.soup_blank = [] ++ Sample.row_blank_forecast :: []
  ∧ is_high_impact Sample.row_blank_forecast = true
  ∧ ∃ ev, parse_news Sample.soup_blank !! 0 = Some ev
          ∧ (∀ key cls cell, (key, cls) ∈ defaulted_columns →
               Bs4.find Sample.row_blank_forecast "td" cls = Some cell →
               ev !! key = Some (Py.Str (Py.strip (Bs4.text cell)))
               ∧ (all_space (Bs4.text cell) = true → ev !! key = Some (Py.Str EmptyString))).
Proof.
  split; [reflexivity|]. split; [reflexivity|].
  exact (present_empty_cell Sample.soup_blank Sample.row_blank_forecast
           [] [] eq_refl eq_refl).
Defined.

(** *** The filter *)

(** C2, as amended.  The events are those of the high-impact calendar
    rows, one each and in document order, and a row is high-impact exactly
    when it has an impact cell whose serialised markup (tag, attributes and
    contents), put in lower case, contains "high". *)
Theorem high_impact_filter (soup : Bs4.PageElement) :
  Forall2 (λ row ev, ∃ d, ev = news_item d row)
          (List.filter is_high_impact (calendar_rows soup)) (parse_news soup)
  ∧ ∀ row, is_high_impact row = true
           ↔ ∃ impact, Bs4.find row "td" "impact" = Some impact
                       ∧ occurs_in "high" (Py.lower (Bs4.decode impact)).
Proof.
  split.
  - unfold parse_news. rewrite scan_rows_events. apply events_from_rows.
  - intros row. unfold is_high_impact.
    destruct (Bs4.find row "td" "impact") as [impact|].
    + rewrite contains_occurs. split; [eauto|]. by intros (? & [= <-] & ?).
    + split; [done | by intros (? & ? & ?)].
Qed.

(** C2, as stated, fails: the impact cell of this row holds an icon and no
    text, so its text does not contain "high", and the row gives an event. *)
Lemma high_impact_filter_counterexample :
  calendar_rows Sample.soup_icon = [Sample.row_nfp]
  ∧ Bs4.find Sample.row_nfp "td" "impact"
    = Some (Sample.impact_cell "high" "High Impact Expected")
  ∧ Bs4.text (Sample.impact_cell "high" "High Impact Expected") = EmptyString
  ∧ Py.contains "high"
      (Py.lower (Bs4.text (Sample.impact_cell "high" "High Impact Expected")))
    = false
  ∧ parse_news Sample.soup_icon = [news_item Py.None_ Sample.row_nfp].
Proof. repeat split; reflexivity. Qed.

(** *** Stripped fields *)

(** C10.  No string in an event has whitespace at its start or at its
    end: each is the stripped text of a cell, or the default ["N/A"]. *)
Theorem fields_are_stripped (soup : Bs4.PageElement) (ev : event) key s :
  ev ∈ parse_news soup → ev !! key = Some (Py.Str s) → no_outer_space s.
Proof.
  unfold parse_news. rewrite scan_rows_events. intros Hin Hv.
  by eapply (events_from_stripped Py.None_ _ ev key (Py.Str s)).
Qed.

Lemma fields_are_stripped_witness :
  news_item (Py.Str "Jan 4") Sample.row_nfp ∈ parse_news Sample.soup_two
  ∧ news_item (Py.Str "Jan 4") Sample.row_nfp !! "time" = Some (Py.Str "8:30am")
  ∧ no_outer_space "8:30am".
Proof.
  assert (news_item (Py.Str "Jan 4") Sample.row_nfp ∈ parse_news Sample.soup_two)
    as Hin by (apply list_elem_of_lookup; by exists 1).
  split; [exact Hin|]. split; [reflexivity|].
  exact (fields_are_stripped Sample.soup_two _ "time" "8:30am" Hin eq_refl).
Defined.

(** *** The fetch *)

(** C5.  With the [user_agent] setting of the configuration read for the
    request header, the fetch returns a list and does not raise; when the
    address is not configured, the request fails, the status is 4xx or
    5xx, or the parser raises, the exception is caught, one line that
    starts "Error fetching forex data: " is printed and the empty list is
    returned. *)
Theorem fetch_error_containment (cfg : config) (net : web) (w : world) user_agent :
  config_get cfg "forex_factory" "user_agent" = Ok user_agent →
  (∃ items w', get_high_impact_news cfg net w = (Ok items, w'))
  ∧ (∀ e, fetch_fails cfg net user_agent e →
       get_high_impact_news cfg net w
       = (Ok [], printed w ("Error fetching forex data: " +:+ Py.str_exn e)))
  ∧ (∀ base_url response,
       config_get cfg "forex_factory" "base_url" = Ok base_url →
       requests_get net base_url {[ "User-Agent" := user_agent ]} = Ok response →
       (400 ≤ Requests.status_code response < 600)%Z →
       ∃ e, fetch_fails cfg net user_agent e).
Proof.
  intros Hua. split; [|split].
  - destruct (fetch_outcome cfg net user_agent) as [[soup H]|[e H]].
    + rewrite (fetch_success _ _ _ Hua _ _ H). eauto.
    + rewrite (fetch_failure _ _ _ Hua _ _ H). eauto.
  - intros e H. by apply (fetch_failure cfg net user_agent).
  - intros url r Hurl Hget Hst.
    destruct (raise_for_status_error r Hst) as [e He].
    exists e. by econstructor 3.
Qed.

(** The header is built at line 33, before the [try]: a configuration
    without the [user_agent] setting is an error of the configuration, and
    leaves the fetch as the [KeyError] of that lookup. *)
Example fetch_without_user_agent :
  config_get SampleWorld.cfg_no_agent "forex_factory" "user_agent"
    = Raise (Py.KeyError "user_agent")
  ∧ get_high_impact_news SampleWorld.cfg_no_agent
      (SampleWorld.net_ok Sample.soup_two) SampleWorld.w0
    = (Raise (Py.KeyError "user_agent"), SampleWorld.w0).
Proof. split; reflexivity. Qed.

Lemma fetch_error_containment_witness :
  config_get SampleWorld.cfg "forex_factory" "user_agent" = Ok "Mozilla/5.0"
  ∧ (∃ items w',
       get_high_impact_news SampleWorld.cfg SampleWorld.net_500 SampleWorld.w0
       = (Ok items, w'))
  ∧ (∀ e, fetch_fails SampleWorld.cfg SampleWorld.net_500 "Mozilla/5.0" e →
       get_high_impact_news SampleWorld.cfg SampleWorld.net_500 SampleWorld.w0
       = (Ok [], printed SampleWorld.w0
                   ("Error fetching forex data: " +:+ Py.str_exn e)))
  ∧ (∀ base_url response,
       config_get SampleWorld.cfg "forex_factory" "base_url" = Ok base_url →
       requests_get SampleWorld.net_500 base_url {[ "User-Agent" := "Mozilla/5.0" ]}
       = Ok response →
       (400 ≤ Requests.status_code response < 600)%Z →
       ∃ e, fetch_fails SampleWorld.cfg SampleWorld.net_500 "Mozilla/5.0" e).
Proof.
  split; [reflexivity|].
  exact (fetch_error_containment SampleWorld.cfg SampleWorld.net_500
           SampleWorld.w0 "Mozilla/5.0" eq_refl).
Defined.

(** The page answers 500: an empty list and one printed line. *)
Example fetch_500 :
  get_high_impact_news SampleWorld.cfg SampleWorld.net_500 SampleWorld.w0
  = (Ok [],
     printed SampleWorld.w0
       "Error fetching forex data: 500 Server Error: Internal Server Error for url: https://www.forexfactory.com/calendar").
Proof. reflexivity. Qed.

(** C4.  The formatter turns the empty list into the string
    "No high-impact news events found.", and so does fetching and then
    formatting a page none of whose calendar rows is high-impact. *)
Theorem empty_input_sentinel (now : datetime) :
  format_news_comment now [] = Ok "No high-impact news events found."
  ∧ (∀ soup,
       Forall (λ row, is_high_impact row = false) (calendar_rows soup) →
       format_news_comment now (parse_news soup)
       = Ok "No high-impact news events found.")
  ∧ (∀ cfg net user_agent soup w,
       config_get cfg "forex_factory" "user_agent" = Ok user_agent →
       fetch_parses cfg net user_agent soup →
       Forall (λ row, is_high_impact row = false) (calendar_rows soup) →
       (news_items <- get_high_impact_news cfg net ;;
        lift (format_news_comment now news_items))%py w
       = (Ok "No high-impact news events found.", w)).
Proof.
  split; [done|]. split.
  - intros soup H. by rewrite parse_news_empty.
  - intros cfg net ua soup w Hua Hfetch H. unfold bind, lift.
    rewrite (fetch_success _ _ _ Hua _ _ Hfetch). by rewrite parse_news_empty.
Qed.

Lemma empty_input_sentinel_witness :
  config_get SampleWorld.cfg "forex_factory" "user_agent" = Ok "Mozilla/5.0"
  ∧ fetch_parses SampleWorld.cfg (SampleWorld.net_ok Sample.soup_low)
      "Mozilla/5.0" Sample.soup_low
  ∧ Forall (λ row, is_high_impact row = false) (calendar_rows Sample.soup_low)
  ∧ (news_items <- get_high_impact_news SampleWorld.cfg
                     (SampleWorld.net_ok Sample.soup_low) ;;
     lift (format_news_comment SampleWorld.now news_items))%py SampleWorld.w0
    = (Ok "No high-impact news events found.", SampleWorld.w0).
Proof.
  assert (fetch_parses SampleWorld.cfg (SampleWorld.net_ok Sample.soup_low)
            "Mozilla/5.0" Sample.soup_low) as Hfetch.
  { exists "https://www.forexfactory.com/calendar", (SampleWorld.response 200 "OK").
    repeat split; reflexivity. }
  assert (Forall (λ row, is_high_impact row = false) (calendar_rows Sample.soup_low))
    as Hlow by (repeat constructor).
  split; [reflexivity|]. split; [exact Hfetch|]. split; [exact Hlow|].
  exact (proj2 (proj2 (empty_input_sentinel SampleWorld.now))
           SampleWorld.cfg (SampleWorld.net_ok Sample.soup_low) "Mozilla/5.0"
           Sample.soup_low SampleWorld.w0 eq_refl Hfetch Hlow).
Defined.

(** *** The formatter *)

(** C7.  For a non-empty list of events the comment is the heading line, an
    empty line, the two lines of the table head with the columns Date,
    Time, Currency, Event, Forecast, Previous, the table row of each event
    in the order of the list, an empty line and "Last updated: " with the
    time stamp.  The time stamp is the reading of the clock written as
    YYYY-MM-DD HH:MM:SS: year, month, day, hour of 24, minute and second
    of that reading, in four digits and five times two.  For the events of
    a page the rows are those of its high-impact calendar rows in document
    order. *)
Theorem formatter_output_structure (now : datetime) :
  four_digit_year now →
  shows_time now (strftime now)
  ∧ (∀ items lines,
       items ≠ [] → Forall2 is_table_row items lines →
       format_news_comment now items
       = Ok (heading +:+ newline +:+ table_head +:+ Py.concat lines +:+ newline
             +:+ "Last updated: " +:+ strftime now))
  ∧ (∀ soup,
       parse_news soup ≠ [] →
       ∃ lines,
         Forall2 (λ row line, ∃ d, is_table_row (news_item d row) line)
                 (List.filter is_high_impact (calendar_rows soup)) lines
         ∧ format_news_comment now (parse_news soup)
           = Ok (heading +:+ newline +:+ table_head +:+ Py.concat lines +:+ newline
                 +:+ "Last updated: " +:+ strftime now)).
Proof.
  intros Hnow.
  assert (∀ items lines,
            items ≠ [] → Forall2 is_table_row items lines →
            format_news_comment now items
            = Ok (heading +:+ newline +:+ table_head +:+ Py.concat lines +:+ newline
                  +:+ "Last updated: " +:+ strftime now)) as Hformat.
  { intros items lines Hne Hrows. destruct items as [|item items]; [done|].
    unfold format_news_comment, obind.
    rewrite (format_rows_lines _ _ _ Hrows).
    unfold heading, table_head. by rewrite !append_assoc. }
  split; [by apply strftime_shows_time|]. split; [exact Hformat|].
  intros soup Hne.
  destruct (events_from_table_rows Py.None_
              (List.filter is_high_impact (calendar_rows soup)))
    as (lines & Hitems & Hrows).
  exists lines. split; [exact Hrows|].
  apply Hformat; [done|]. unfold parse_news. by rewrite scan_rows_events.
Qed.

Lemma formatter_output_structure_witness :
  four_digit_year SampleWorld.now
  ∧ strftime SampleWorld.now = "2026-01-05 09:03:59"
  ∧ shows_time SampleWorld.now (strftime SampleWorld.now)
  ∧ (∀ items lines,
       items ≠ [] → Forall2 is_table_row items lines →
       format_news_comment SampleWorld.now items
       = Ok (heading +:+ newline +:+ table_head +:+ Py.concat lines +:+ newline
             +:+ "Last updated: " +:+ strftime SampleWorld.now)).
Proof.
  assert (four_digit_year SampleWorld.now) as Hnow
    by (unfold four_digit_year; simpl; lia).
  split; [exact Hnow|]. split; [reflexivity|].
  pose proof (formatter_output_structure SampleWorld.now Hnow) as (H1 & H2 & _).
  split; [exact H1 | exact H2].
Defined.

(** The scenario of the specification: one high-impact row dated "Jan 5"
    with no forecast cell. *)
Example scenario_payrolls :
  let row := Sample.calendar_row
               [ Sample.cell "calendar__date" "Jan 5";
                 Sample.impact_cell "high" "High Impact Expected";
                 Sample.cell "calendar__time" "8:30am";
                 Sample.cell "calendar__currency" "USD";
                 Sample.cell "calendar__event" "Non-Farm Payrolls";
                 Sample.cell "calendar__previous" "180K" ] in
  parse_news (Sample.page [row])
  = [ {[ "date" := Py.Str "Jan 5"; "time" := Py.Str "8:30am";
         "currency" := Py.Str "USD"; "event" := Py.Str "Non-Farm Payrolls";
         "forecast" := Py.Str "N/A"; "previous" := Py.Str "180K" ]} ]
  ∧ format_news_comment SampleWorld.now (parse_news (Sample.page [row]))
    = Ok (heading +:+ newline +:+ table_head
          +:+ "| Jan 5 | 8:30am | USD | Non-Farm Payrolls | N/A | 180K |" +:+ newline
          +:+ newline +:+ "Last updated: 2026-01-05 09:03:59").
Proof. split; reflexivity. Qed.

(** The scenario of the specification in which the page answers 500: the
    fetch prints its line, and the update posts the "no events" string. *)
Example scenario_http_500 :
  main SampleWorld.cfg SampleWorld.net_500 SampleWorld.api_twice SampleWorld.now
       SampleWorld.w0
  = (Ok tt,
     printed
       (commented
          (printed SampleWorld.w0
             "Error fetching forex data: 500 Server Error: Internal Server Error for url: https://www.forexfactory.com/calendar")
          SampleWorld.card_forex "No high-impact news events found.")
       "Successfully updated Trello card with forex news").
Proof. reflexivity. Qed.

(** *** The board update *)



(** C8.  With the board and its lists retrieved, the update takes the first
    list whose name equals the configured list name and, among the cards
    of that list, the first card whose name equals the configured card
    name, and posts the comment on that card.  When no list has the name,
    or no card of the list has it, one line naming what was not found is
    printed and no comment is posted. *)
Theorem first_exact_match (cfg : config) (api : Trello.client)
  (comment_text : string) (w : world) id list_name card_name board lists :
  config_get cfg "trello" "board_id" = Ok id →
  config_get cfg "trello" "list_name" = Ok list_name →
  config_get cfg "trello" "card_name" = Ok card_name →
  Trello.get_board api id = Ok board →
  Trello.list_lists api board = Ok lists →
  (∀ lists1 trello_list lists2 cards,
     lists = lists1 ++ trello_list :: lists2 →
     Forall (λ l, Trello.list_name l ≠ list_name) lists1 →
     Trello.list_name trello_list = list_name →
     Trello.list_cards api trello_list = Ok cards →
     (∀ cards1 card cards2,
        cards = cards1 ++ card :: cards2 →
        Forall (λ c, Trello.card_name c ≠ card_name) cards1 →
        Trello.card_name card = card_name →
        Trello.add_comment api card comment_text = Ok tt →
        update_trello_card cfg api comment_text w
        = (Ok tt, printed (commented w card comment_text)
                    "Successfully updated Trello card with forex news"))
     ∧ (Forall (λ c, Trello.card_name c ≠ card_name) cards →
        update_trello_card cfg api comment_text w
        = (Ok tt, printed w ("Error updating Trello card: Card '" +:+ card_name
                               +:+ "' not found"))))
  ∧ (Forall (λ l, Trello.list_name l ≠ list_name) lists →
     update_trello_card cfg api comment_text w
     = (Ok tt, printed w ("Error updating Trello card: List '" +:+ list_name
                            +:+ "' not found"))).
Proof.
  intros Hid Hlist Hcard Hboard Hlists. split.
  - intros lists1 trello_list lists2 cards Hsplit Hfirst Hname Hcards. split.
    + intros cards1 card cards2 Hcsplit Hcfirst Hcname Hok.
      by eapply update_first_card.
    + intros Hnone. by eapply update_card_missing.
  - intros Hnone. by eapply update_list_missing.
Qed.

Lemma first_exact_match_witness :
  config_get SampleWorld.cfg "trello" "board_id" = Ok "b1"
  ∧ config_get SampleWorld.cfg "trello" "list_name" = Ok "News"
  ∧ config_get SampleWorld.cfg "trello" "card_name" = Ok "Forex"
  ∧ Forall (λ l, Trello.list_name l ≠ "News") [SampleWorld.list_todo]
  ∧ Forall (λ c, Trello.card_name c ≠ "Forex") [SampleWorld.card_other]
  ∧ update_trello_card SampleWorld.cfg SampleWorld.api_twice "comment" SampleWorld.w0
    = (Ok tt, printed (commented SampleWorld.w0 SampleWorld.card_forex "comment")
                "Successfully updated Trello card with forex news").
Proof.
  assert (Forall (λ l, Trello.list_name l ≠ "News") [SampleWorld.list_todo])
    as Hl by (repeat constructor; discriminate).
  assert (Forall (λ c, Trello.card_name c ≠ "Forex") [SampleWorld.card_other])
    as Hc by (repeat constructor; discriminate).
  split; [reflexivity|]. split; [reflexivity|]. split; [reflexivity|].
  split; [exact Hl|]. split; [exact Hc|].
  exact (proj1 (proj1 (first_exact_match SampleWorld.cfg SampleWorld.api_twice
                         "comment" SampleWorld.w0 "b1" "News" "Forex"
                         {| Trello.board_id := "b1" |}
                         [SampleWorld.list_todo; SampleWorld.list_news;
                          SampleWorld.list_news']
                         eq_refl eq_refl eq_refl eq_refl eq_refl)
                  [SampleWorld.list_todo] SampleWorld.list_news
                  [SampleWorld.list_news']
                  [SampleWorld.card_other; SampleWorld.card_forex;
                   SampleWorld.card_forex']
                  eq_refl Hl eq_refl eq_refl)
           [SampleWorld.card_other] SampleWorld.card_forex
           [SampleWorld.card_forex'] eq_refl Hc eq_refl eq_refl).
Defined.

(** ** Further properties of the row scan *)

Section ScanMore.

Implicit Types (row : Bs4.PageElement) (rows : list Bs4.PageElement).
Implicit Types (d : Py.value).

Lemma filter_high_idem rows :
  List.filter is_high_impact (List.filter is_high_impact rows)
  = List.filter is_high_impact rows.
Proof.
  induction rows as [|row rows IH]; simpl; [done|].
  destruct (is_high_impact row) eqn:E; simpl; [by rewrite E, IH | done].
Qed.

Lemma most_recent_date_none rows :
  most_recent_date rows = Py.None_ ↔ Forall (λ r, declared_date r = None) rows.
Proof.
  unfold most_recent_date. split.
  - intros H.
    assert (omap declared_date rows = []) as Hnil.
    { destruct (last (omap declared_date rows)) eqn:E; [done|].
      by apply last_None in E. }
    clear H. induction rows as [|r rows IH]; [constructor|].
    change (omap declared_date (r :: rows))
      with (match declared_date r with
            | Some y => y :: omap declared_date rows
            | None => omap declared_date rows
            end) in Hnil.
    destruct (declared_date r) eqn:E; [done|]. constructor; auto.
  - intros H. by rewrite (omap_declared_none _ H).
Qed.

Lemma next_date_is_str d row : is_str d = true → is_str (next_date d row) = true.
Proof.
  intros H. unfold next_date.
  destruct (Bs4.find row "td" "calendar__date"); [|done].
  by destruct (Py.truthy _).
Qed.

Lemma fold_next_date_is_str d rows :
  is_str d = true → is_str (fold_left next_date rows d) = true.
Proof.
  revert d. induction rows as [|r rows IH]; intros d H; simpl; [done|].
  by apply IH, next_date_is_str.
Qed.

(** The event at a given place of the loop's output. *)
Lemma events_from_lookup d rows k ev :
  events_from d rows !! k = Some ev →
  ∃ row, rows !! k = Some row
         ∧ ev = news_item (fold_left next_date (take (S k) rows) d) row.
Proof.
  revert d k. induction rows as [|r rows IH]; intros d k; simpl; [done|].
  destruct k as [|k]; simpl.
  - intros [= <-]. by exists r.
  - intros H. by apply IH in H.
Qed.

Lemma next_date_ok d row : date_value_ok d → date_value_ok (next_date d row).
Proof.
  intros H. unfold next_date, date_value_ok.
  destruct (Bs4.find row "td" "calendar__date") as [c|]; [|done].
  destruct (Py.strip (Bs4.text c)) eqn:E; simpl; [done | discriminate].
Qed.

Lemma events_from_date_ok d rows ev :
  date_value_ok d → ev ∈ events_from d rows →
  ∃ d', ev !! "date" = Some d' ∧ date_value_ok d'.
Proof.
  revert d. induction rows as [|row rows IH]; intros d Hd; simpl.
  - by intros ?%elem_of_nil.
  - intros [->|Hin]%elem_of_cons.
    + exists (next_date d row). split; [apply news_item_date | by apply next_date_ok].
    + eapply IH; [|done]. by apply next_date_ok.
Qed.

End ScanMore.

(** X1.  Rows that are not high-impact leave no trace: the scan of a list
    of calendar rows gives the same events as the scan of its high-impact
    rows alone. *)
Theorem skipped_rows_leave_no_trace (rows : list Bs4.PageElement) :
  scan_rows rows = scan_rows (List.filter is_high_impact rows).
Proof. by rewrite !scan_rows_events, filter_high_idem. Qed.

(** X2.  The list of events only grows at its end: the events of the rows
    scanned so far stay as they are when more rows follow, and the rows
    that follow add one event for each high-impact row among them. *)
Theorem events_only_appended (rows1 rows2 : list Bs4.PageElement) :
  ∃ more,
    scan_rows (rows1 ++ rows2) = scan_rows rows1 ++ more
    ∧ length more = length (List.filter is_high_impact rows2).
Proof.
  rewrite !scan_rows_events, List.filter_app, events_from_app.
  eexists. split; [done|]. apply events_from_length.
Qed.

(** X3.  The [date] of the event of a high-impact row is [None] exactly
    when neither that row nor a high-impact row before it declares a
    date. *)
Theorem date_none_until_declared (soup row : Bs4.PageElement)
  (before after : list Bs4.PageElement) :
  calendar_rows soup = before ++ row :: after →
  is_high_impact row = true →
  ∃ ev, parse_news soup !! length (List.filter is_high_impact before) = Some ev
        ∧ (ev !! "date" = Some Py.None_
           ↔ Forall (λ r, declared_date r = None)
                    (List.filter is_high_impact (before ++ [row]))).
Proof.
  intros Hsplit Hhigh. eexists.
  split; [by apply (event_of_row soup row before after)|].
  rewrite news_item_date, <- most_recent_date_none.
  split; [by intros [= ->] | by intros ->].
Qed.

Lemma date_none_until_declared_witness :
  calendar_rows SampleMore.soup_undated_first
    = [Sample.row_pmi_low] ++ Sample.row_nfp :: [Sample.row_cpi]
  ∧ is_high_impact Sample.row_nfp = true
  ∧ ∃ ev, parse_news SampleMore.soup_undated_first !! 0 = Some ev
          ∧ (ev !! "date" = Some Py.None_
             ↔ Forall (λ r, declared_date r = None) [Sample.row_nfp]).
Proof.
  split; [reflexivity|]. split; [reflexivity|].
  exact (date_none_until_declared SampleMore.soup_undated_first Sample.row_nfp
           [Sample.row_pmi_low] [Sample.row_cpi] eq_refl eq_refl).
Defined.

(** X4.  The [date] of an event is never the empty string: a date cell
    with no text in it, or with blanks only, does not replace the date
    carried so far. *)
Theorem date_never_empty (soup : Bs4.PageElement) (ev : event) :
  ev ∈ parse_news soup → ev !! "date" ≠ Some (Py.Str EmptyString).
Proof.
  unfold parse_news. rewrite scan_rows_events. intros Hin.
  destruct (events_from_date_ok Py.None_ _ ev ltac:(done) Hin) as (d & Hd & Hok).
  rewrite Hd. intros [= ->]. by apply Hok.
Qed.

Lemma date_never_empty_witness :
  news_item (Py.Str "Jan 5") Sample.row_blank_forecast ∈ parse_news Sample.soup_blank
  ∧ news_item (Py.Str "Jan 5") Sample.row_blank_forecast !! "date"
    ≠ Some (Py.Str EmptyString).
Proof.
  assert (news_item (Py.Str "Jan 5") Sample.row_blank_forecast
            ∈ parse_news Sample.soup_blank)
    as Hin by (apply list_elem_of_lookup; by exists 0).
  split; [exact Hin|].
  exact (date_never_empty Sample.soup_blank _ Hin).
Defined.

(** X5.  Once an event has a date, every later event has one: the events
    whose [date] is [None] come before all the others. *)
Theorem dated_from_first_declaration (soup : Bs4.PageElement) (i j : nat)
  (ev_i ev_j : event) date :
  i ≤ j →
  parse_news soup !! i = Some ev_i → ev_i !! "date" = Some (Py.Str date) →
  parse_news soup !! j = Some ev_j →
  ∃ date', ev_j !! "date" = Some (Py.Str date').
Proof.
  unfold parse_news. rewrite scan_rows_events.
  set (rows := List.filter is_high_impact (calendar_rows soup)).
  intros Hij Hi Hdate Hj.
  apply events_from_lookup in Hi as (ri & _ & ->).
  apply events_from_lookup in Hj as (rj & _ & ->).
  rewrite news_item_date in Hdate. injection Hdate as Hdate.
  rewrite news_item_date.
  assert (take (S j) rows = take (S i) rows ++ drop (S i) (take (S j) rows)) as ->.
  { rewrite <- (take_drop (S i) (take (S j) rows)) at 1.
    rewrite take_take. f_equal. f_equal. lia. }
  rewrite fold_left_app, Hdate.
  pose proof (fold_next_date_is_str (Py.Str date)
                (drop (S i) (take (S j) rows)) eq_refl) as H.
  destruct (fold_left next_date _ (Py.Str date)) as [|date']; [done|]. eauto.
Qed.

Lemma dated_from_first_declaration_witness :
  0 ≤ 1
  ∧ parse_news Sample.soup_two !! 0 = Some (news_item (Py.Str "Jan 4") Sample.row_cpi)
  ∧ news_item (Py.Str "Jan 4") Sample.row_cpi !! "date" = Some (Py.Str "Jan 4")
  ∧ parse_news Sample.soup_two !! 1 = Some (news_item (Py.Str "Jan 4") Sample.row_nfp)
  ∧ ∃ date', news_item (Py.Str "Jan 4") Sample.row_nfp !! "date"
             = Some (Py.Str date').
Proof.
  assert (0 ≤ 1) as H01 by lia.
  split; [exact H01|]. split; [reflexivity|]. split; [reflexivity|].
  split; [reflexivity|].
  exact (dated_from_first_declaration Sample.soup_two 0 1 _ _ "Jan 4"
           H01 eq_refl eq_refl eq_refl).
Defined.

(** ** Further properties of the formatter *)

Section FormatMore.

Implicit Types (item : event) (items : list event).

Lemma has_all_keys_table_row item : has_all_keys item → ∃ line, is_table_row item line.
Proof.
  unfold has_all_keys, event_keys. rewrite !Forall_cons.
  intros ([d Hd] & [t Ht] & [c Hc] & [e He] & [f Hf] & [p Hp] & _).
  eexists. by exists d, t, c, e, f, p.
Qed.

Lemma all_keys_table_rows items :
  Forall has_all_keys items → ∃ lines, Forall2 is_table_row items lines.
Proof.
  induction 1 as [|item items H _ [lines IH]]; [by exists []|].
  destruct (has_all_keys_table_row _ H) as [line Hline].
  exists (line :: lines). by constructor.
Qed.

Lemma format_rows_app items lines more comment :
  Forall2 is_table_row items lines →
  format_rows comment (items ++ more) = format_rows (comment +:+ Py.concat lines) more.
Proof.
  intros H. revert comment.
  induction H as [|item line items lines Hrow _ IH]; intros comment; simpl.
  - by rewrite append_nil_r.
  - destruct Hrow as (d & t & c & e & f & p & Hd & Ht & Hc & He & Hf & Hp & ->).
    unfold getitem. rewrite Hd, Ht, Hc, He, Hf, Hp. simpl.
    rewrite IH. f_equal. by rewrite !append_assoc.
Qed.

Lemma format_rows_missing item rest key comment :
  first_missing_key item = Some key →
  format_rows comment (item :: rest) = Raise (Py.KeyError key).
Proof.
  unfold first_missing_key, event_keys. simpl. unfold getitem.
  destruct (item !! "date"); [|by intros [= <-]]. simpl.
  destruct (item !! "time"); [|by intros [= <-]]. simpl.
  destruct (item !! "currency"); [|by intros [= <-]]. simpl.
  destruct (item !! "event"); [|by intros [= <-]]. simpl.
  destruct (item !! "forecast"); [|by intros [= <-]]. simpl.
  destruct (item !! "previous"); [done | by intros [= <-]].
Qed.

Lemma format_rows_raises items comment e :
  format_rows comment items = Raise e → ∃ key, e = Py.KeyError key.
Proof.
  revert comment. induction items as [|item items IH]; intros comment; simpl; [done|].
  unfold getitem.
  destruct (item !! "date"); simpl; [|intros [= <-]; eauto].
  destruct (item !! "time"); simpl; [|intros [= <-]; eauto].
  destruct (item !! "currency"); simpl; [|intros [= <-]; eauto].
  destruct (item !! "event"); simpl; [|intros [= <-]; eauto].
  destruct (item !! "forecast"); simpl; [|intros [= <-]; eauto].
  destruct (item !! "previous"); simpl; [|intros [= <-]; eauto].
  apply IH.
Qed.

Lemma format_news_comment_lines now items lines :
  items ≠ [] → Forall2 is_table_row items lines →
  format_news_comment now items
  = Ok (heading +:+ newline +:+ table_head +:+ Py.concat lines +:+ newline
        +:+ "Last updated: " +:+ strftime now).
Proof.
  intros Hne Hrows. destruct items as [|item items]; [done|].
  unfold format_news_comment, obind.
  rewrite (format_rows_lines _ _ _ Hrows).
  unfold heading, table_head. by rewrite !append_assoc.
Qed.

Lemma parse_news_table_rows soup : ∃ lines, Forall2 is_table_row (parse_news soup) lines.
Proof.
  unfold parse_news. rewrite scan_rows_events.
  destruct (events_from_table_rows Py.None_
              (List.filter is_high_impact (calendar_rows soup))) as (lines & H & _).
  by exists lines.
Qed.

Lemma format_parse_news now soup :
  ∃ text, format_news_comment now (parse_news soup) = Ok text.
Proof.
  destruct (parse_news_table_rows soup) as [lines Hlines].
  destruct (parse_news soup) as [|item items] eqn:E; [by eexists|].
  eexists. by apply (format_news_comment_lines now _ lines).
Qed.

End FormatMore.

(** X6.  The formatter does not raise on what the fetch returns: every
    event built by the scan has the six keys the formatter reads. *)
Theorem formatter_accepts_fetched_events (now : datetime) (soup : Bs4.PageElement) :
  ∃ text, format_news_comment now (parse_news soup) = Ok text.
Proof. apply format_parse_news. Qed.

(** X7.  The row of an event without a date shows the word None in the
    Date column.  For a high-impact row such that neither it nor a
    high-impact row before it declares a date, the comment is made of the
    table rows of the events of the page, and the one at the place of
    the event of that row is "| None | " followed by its five other
    fields. *)
Theorem undated_event_prints_None (now : datetime) (soup row : Bs4.PageElement)
  (before after : list Bs4.PageElement) :
  calendar_rows soup = before ++ row :: after →
  is_high_impact row = true →
  Forall (λ r, declared_date r = None)
         (List.filter is_high_impact (before ++ [row])) →
  ∃ lines,
    Forall2 is_table_row (parse_news soup) lines
    ∧ format_news_comment now (parse_news soup)
      = Ok (heading +:+ newline +:+ table_head +:+ Py.concat lines +:+ newline
            +:+ "Last updated: " +:+ strftime now)
    ∧ lines !! length (List.filter is_high_impact before)
      = Some ("| None | "
              +:+ Py.str (text_or_na (Bs4.find row "td" "calendar__time")) +:+ " | "
              +:+ Py.str (text_or_na (Bs4.find row "td" "calendar__currency")) +:+ " | "
              +:+ Py.str (text_or_na (Bs4.find row "td" "calendar__event")) +:+ " | "
              +:+ Py.str (text_or_na (Bs4.find row "td" "calendar__forecast")) +:+ " | "
              +:+ Py.str (text_or_na (Bs4.find row "td" "calendar__previous"))
              +:+ " |" +:+ newline).
Proof.
  intros Hsplit Hhigh Hnone.
  pose proof (event_of_row soup row before after Hsplit Hhigh) as Hev.
  apply most_recent_date_none in Hnone. rewrite Hnone in Hev.
  destruct (parse_news_table_rows soup) as [lines Hlines].
  destruct (Forall2_lookup_l _ _ _ _ _ Hlines Hev) as (line & Hline & Hrow).
  destruct Hrow as (d & t & c & e & f & p & Hd & Ht & Hc & He & Hf & Hp & ->).
  unfold news_item in Hd, Ht, Hc, He, Hf, Hp. simplify_map_eq.
  exists lines. split; [done|]. split.
  - apply format_news_comment_lines; [|done]. intros Hnil. by rewrite Hnil in Hev.
  - rewrite Hline. reflexivity.
Qed.

Lemma undated_event_prints_None_witness :
  calendar_rows SampleMore.soup_undated_first
    = [Sample.row_pmi_low] ++ Sample.row_nfp :: [Sample.row_cpi]
  ∧ is_high_impact Sample.row_nfp = true
  ∧ Forall (λ r, declared_date r = None)
           (List.filter is_high_impact ([Sample.row_pmi_low] ++ [Sample.row_nfp]))
  ∧ ∃ lines,
      Forall2 is_table_row (parse_news SampleMore.soup_undated_first) lines
      ∧ format_news_comment SampleWorld.now (parse_news SampleMore.soup_undated_first)
        = Ok (heading +:+ newline +:+ table_head +:+ Py.concat lines +:+ newline
              +:+ "Last updated: " +:+ strftime SampleWorld.now)
      ∧ lines !! 0 = Some ("| None | 8:30am | USD | Non-Farm Payrolls | N/A | 180K |"
                           +:+ newline).
Proof.
  assert (Forall (λ r, declared_date r = None)
            (List.filter is_high_impact ([Sample.row_pmi_low] ++ [Sample.row_nfp])))
    as Hnone by (repeat constructor).
  split; [reflexivity|]. split; [reflexivity|]. split; [exact Hnone|].
  exact (undated_event_prints_None SampleWorld.now SampleMore.soup_undated_first
           Sample.row_nfp [Sample.row_pmi_low] [Sample.row_cpi]
           eq_refl eq_refl Hnone).
Defined.

(** X8.  A dict without one of the six keys makes the formatter raise
    [KeyError] for the first key it lacks, in the order date, time,
    currency, event, forecast, previous, whatever comes after it in the
    list; the dicts before it have all their keys. *)
Theorem missing_key_raises (now : datetime) (good : list event) (item : event)
  (rest : list event) key :
  Forall has_all_keys good →
  first_missing_key item = Some key →
  format_news_comment now (good ++ item :: rest) = Raise (Py.KeyError key).
Proof.
  intros Hgood Hkey.
  destruct (all_keys_table_rows _ Hgood) as [lines Hlines].
  assert (∀ comment, format_rows comment (good ++ item :: rest)
                     = Raise (Py.KeyError key)) as Hrows.
  { intros comment. rewrite (format_rows_app _ _ _ _ Hlines).
    by apply format_rows_missing. }
  unfold format_news_comment.
  destruct (good ++ item :: rest) eqn:E; [by destruct good|].
  by rewrite Hrows.
Qed.

Lemma missing_key_raises_witness :
  Forall has_all_keys [SampleMore.item_full]
  ∧ first_missing_key SampleMore.item_short = Some "forecast"
  ∧ format_news_comment SampleWorld.now
      ([SampleMore.item_full] ++ SampleMore.item_short :: [SampleMore.item_full])
    = Raise (Py.KeyError "forecast").
Proof.
  assert (Forall has_all_keys [SampleMore.item_full]) as Hgood.
  { repeat constructor; by eexists. }
  split; [exact Hgood|]. split; [reflexivity|].
  exact (missing_key_raises SampleWorld.now [SampleMore.item_full]
           SampleMore.item_short [SampleMore.item_full] "forecast" Hgood eq_refl).
Defined.

(** X9.  The clock shows only after "Last updated: ": for a non-empty list
    the comment is one text, the same at any time, followed by the time
    stamp, or the formatter raises the same [KeyError] at any time. *)
Theorem clock_only_in_last_line (items : list event) :
  items ≠ [] →
  (∃ body, ∀ now, format_news_comment now items
                  = Ok (body +:+ "Last updated: " +:+ strftime now))
  ∨ (∃ key, ∀ now, format_news_comment now items = Raise (Py.KeyError key)).
Proof.
  intros Hne. destruct items as [|item items]; [done|].
  unfold format_news_comment.
  destruct (format_rows _ (item :: items)) as [comment|e] eqn:E.
  - left. exists (comment +:+ newline). intros now. simpl.
    by rewrite !append_assoc.
  - right. destruct (format_rows_raises _ _ _ E) as [key ->].
    exists key. by intros now.
Qed.

Lemma clock_only_in_last_line_witness :
  [SampleMore.item_full] ≠ []
  ∧ ((∃ body, ∀ now, format_news_comment now [SampleMore.item_full]
                     = Ok (body +:+ "Last updated: " +:+ strftime now))
     ∨ (∃ key, ∀ now, format_news_comment now [SampleMore.item_full]
                      = Raise (Py.KeyError key))).
Proof.
  assert ([SampleMore.item_full] ≠ []) as Hne by discriminate.
  split; [exact Hne|].
  exact (clock_only_in_last_line [SampleMore.item_full] Hne).
Defined.

(** ** Further properties of the fetch, the update and [main] *)

Section Whole.

Variables (cfg : config) (net : web) (api : Trello.client) (now : datetime).

Lemma fetch_raises_iff w e w' :
  get_high_impact_news cfg net w = (Raise e, w')
  ↔ config_get cfg "forex_factory" "user_agent" = Raise e ∧ w' = w.
Proof.
  destruct (config_get cfg "forex_factory" "user_agent") as [ua|e0] eqn:Hua.
  - split; [|by intros [? _]].
    destruct (fetch_outcome cfg net ua) as [[soup H]|[e1 H]].
    + by rewrite (fetch_success _ _ _ Hua _ _ H).
    + by rewrite (fetch_failure _ _ _ Hua _ _ H).
  - unfold get_high_impact_news, bind, lift. rewrite Hua.
    split; [by intros [= -> ->] | by intros [[= ->] ->]].
Qed.

Lemma main_after_fetch soup text w user_agent :
  config_get cfg "forex_factory" "user_agent" = Ok user_agent →
  fetch_parses cfg net user_agent soup →
  format_news_comment now (parse_news soup) = Ok text →
  main cfg net api now w = update_trello_card cfg api text w.
Proof.
  intros Hua Hfetch Htext. unfold main, bind, lift.
  by rewrite (fetch_success _ _ _ Hua _ _ Hfetch), Htext.
Qed.

Lemma main_after_failure e w user_agent :
  config_get cfg "forex_factory" "user_agent" = Ok user_agent →
  fetch_fails cfg net user_agent e →
  main cfg net api now w
  = update_trello_card cfg api "No high-impact news events found."
      (printed w ("Error fetching forex data: " +:+ Py.str_exn e)).
Proof.
  intros Hua Hfail. unfold main, bind, lift.
  by rewrite (fetch_failure _ _ _ Hua _ _ Hfail).
Qed.

Lemma update_posts_at_most_once text w :
  ∃ w', update_trello_card cfg api text w = (Ok tt, w')
        ∧ (posted w' = posted w
           ∨ ∃ card, posted w' = posted w ++ [(Trello.card_id card, text)]).
Proof.
  destruct (update_returns cfg api text w) as (w' & Hw' & [[card ->]|[e ->]]);
    eexists; (split; [exact Hw'|]); simpl; eauto.
Qed.

End Whole.

(** X10.  The fetch raises exactly when the setting
    [forex_factory.user_agent] cannot be read, with the [KeyError] of that
    lookup and before anything is printed or requested. *)
Theorem fetch_raises_only_for_user_agent (cfg : config) (net : web) (w w' : world)
  (e : Py.exn) :
  get_high_impact_news cfg net w = (Raise e, w')
  ↔ config_get cfg "forex_factory" "user_agent" = Raise e ∧ w' = w.
Proof. apply fetch_raises_iff. Qed.

(** X11.  An error of the Trello service at any of its four calls
    (the board, its lists, the cards of the list, the comment) ends the
    update with one line, "Error updating Trello card: " and the text of
    the error, and nothing posted. *)
Theorem api_error_reported (cfg : config) (api : Trello.client)
  (comment_text : string) (w : world) id list_name card_name (e : Py.exn) :
  config_get cfg "trello" "board_id" = Ok id →
  config_get cfg "trello" "list_name" = Ok list_name →
  config_get cfg "trello" "card_name" = Ok card_name →
  (Trello.get_board api id = Raise e
   ∨ ∃ board,
       Trello.get_board api id = Ok board
       ∧ (Trello.list_lists api board = Raise e
          ∨ ∃ lists1 trello_list lists2,
              Trello.list_lists api board = Ok (lists1 ++ trello_list :: lists2)
              ∧ Forall (λ l, Trello.list_name l ≠ list_name) lists1
              ∧ Trello.list_name trello_list = list_name
              ∧ (Trello.list_cards api trello_list = Raise e
                 ∨ ∃ cards1 card cards2,
                     Trello.list_cards api trello_list
                     = Ok (cards1 ++ card :: cards2)
                     ∧ Forall (λ c, Trello.card_name c ≠ card_name) cards1
                     ∧ Trello.card_name card = card_name
                     ∧ Trello.add_comment api card comment_text = Raise e))) →
  update_trello_card cfg api comment_text w
  = (Ok tt, printed w ("Error updating Trello card: " +:+ Py.str_exn e)).
Proof.
  intros Hid Hlist Hcard H.
  unfold update_trello_card, try_except, bind, lift, raise, print, printed,
    Trello.comment.
  rewrite Hid.
  destruct H as [->|(board & -> & H)]; [done|].
  destruct H as [->|(lists1 & l & lists2 & -> & Hfirst & Hname & H)]; [done|].
  rewrite Hlist, (first_named_first _ _ _ _ _ Hfirst Hname).
  destruct H as [->|(cards1 & c & cards2 & -> & Hcfirst & Hcname & Hfail)]; [done|].
  by rewrite Hcard, (first_named_first _ _ _ _ _ Hcfirst Hcname), Hfail.
Qed.

Lemma api_error_reported_witness :
  config_get SampleWorld.cfg "trello" "board_id" = Ok "b1"
  ∧ config_get SampleWorld.cfg "trello" "list_name" = Ok "News"
  ∧ config_get SampleWorld.cfg "trello" "card_name" = Ok "Forex"
  ∧ Trello.get_board SampleMore.api_down "b1" = Raise SampleMore.unauthorized
  ∧ update_trello_card SampleWorld.cfg SampleMore.api_down "comment" SampleWorld.w0
    = (Ok tt, printed SampleWorld.w0
                ("Error updating Trello card: "
                 +:+ Py.str_exn SampleMore.unauthorized)).
Proof.
  split; [reflexivity|]. split; [reflexivity|]. split; [reflexivity|].
  split; [reflexivity|].
  exact (api_error_reported SampleWorld.cfg SampleMore.api_down "comment"
           SampleWorld.w0 "b1" "News" "Forex" SampleMore.unauthorized
           eq_refl eq_refl eq_refl (or_introl eq_refl)).
Defined.

(** X12.  A missing [trello] setting is reported like any other error and
    does not leave the update.  Without [board_id] the line carries the
    [KeyError] whatever the service would answer; without [list_name], or
    without [card_name] once the list is found, it does so whether or not
    there are lists, or cards, to compare. *)
Theorem missing_trello_setting_reported (cfg : config) (api : Trello.client)
  (comment_text : string) (w : world) (e : Py.exn) :
  (config_get cfg "trello" "board_id" = Raise e →
   update_trello_card cfg api comment_text w
   = (Ok tt, printed w ("Error updating Trello card: " +:+ Py.str_exn e)))
  ∧ (∀ id board lists,
       config_get cfg "trello" "board_id" = Ok id →
       Trello.get_board api id = Ok board →
       Trello.list_lists api board = Ok lists →
       config_get cfg "trello" "list_name" = Raise e →
       update_trello_card cfg api comment_text w
       = (Ok tt, printed w ("Error updating Trello card: " +:+ Py.str_exn e)))
  ∧ (∀ id list_name board lists1 trello_list lists2 cards,
       config_get cfg "trello" "board_id" = Ok id →
       config_get cfg "trello" "list_name" = Ok list_name →
       Trello.get_board api id = Ok board →
       Trello.list_lists api board = Ok (lists1 ++ trello_list :: lists2) →
       Forall (λ l, Trello.list_name l ≠ list_name) lists1 →
       Trello.list_name trello_list = list_name →
       Trello.list_cards api trello_list = Ok cards →
       config_get cfg "trello" "card_name" = Raise e →
       update_trello_card cfg api comment_text w
       = (Ok tt, printed w ("Error updating Trello card: " +:+ Py.str_exn e))).
Proof.
  split; [|split].
  - intros H.
    unfold update_trello_card, try_except, bind, lift, raise, print, printed.
    by rewrite H.
  - intros id board lists Hid Hboard Hlists H.
    unfold update_trello_card, try_except, bind, lift, raise, print, printed.
    rewrite Hid, Hboard, Hlists, H. by destruct lists.
  - intros id list_name board lists1 l lists2 cards Hid Hlist Hboard Hlists
      Hfirst Hname Hcards H.
    unfold update_trello_card, try_except, bind, lift, raise, print, printed.
    rewrite Hid, Hboard, Hlists, Hlist, (first_named_first _ _ _ _ _ Hfirst Hname).
    rewrite Hcards, H. by destruct cards.
Qed.

Lemma missing_trello_setting_reported_witness :
  config_get SampleMore.cfg_no_trello "trello" "board_id"
    = Raise (Py.KeyError "trello")
  ∧ update_trello_card SampleMore.cfg_no_trello SampleWorld.api_twice "comment"
      SampleWorld.w0
    = (Ok tt, printed SampleWorld.w0 "Error updating Trello card: 'trello'").
Proof.
  split; [reflexivity|].
  exact (proj1 (missing_trello_setting_reported SampleMore.cfg_no_trello
                  SampleWorld.api_twice "comment" SampleWorld.w0
                  (Py.KeyError "trello")) eq_refl).
Defined.

(** X13.  What [main] hands to the update.  When the fetch reaches a page,
    the comment is the formatter's text for the events of that page, and
    nothing has been printed before the update starts; when the fetch
    fails, the update starts after the line of the fetch and posts the
    text "No high-impact news events found.", as for a page without
    events. *)
Theorem main_posts_formatted_events (cfg : config) (net : web) (api : Trello.client)
  (now : datetime) (w : world) user_agent :
  config_get cfg "forex_factory" "user_agent" = Ok user_agent →
  (∀ soup, fetch_parses cfg net user_agent soup →
     ∃ text, format_news_comment now (parse_news soup) = Ok text
             ∧ main cfg net api now w = update_trello_card cfg api text w)
  ∧ (∀ e, fetch_fails cfg net user_agent e →
       main cfg net api now w
       = update_trello_card cfg api "No high-impact news events found."
           (printed w ("Error fetching forex data: " +:+ Py.str_exn e))).
Proof.
  intros Hua. split.
  - intros soup Hfetch. destruct (format_parse_news now soup) as [text Htext].
    exists text. split; [done|]. by eapply main_after_fetch.
  - intros e Hfail. by eapply main_after_failure.
Qed.

Lemma main_posts_formatted_events_witness :
  config_get SampleWorld.cfg "forex_factory" "user_agent" = Ok "Mozilla/5.0"
  ∧ fetch_fails SampleWorld.cfg SampleWorld.net_500 "Mozilla/5.0"
      (Py.HTTPError
         "500 Server Error: Internal Server Error for url: https://www.forexfactory.com/calendar")
  ∧ main SampleWorld.cfg SampleWorld.net_500 SampleWorld.api_twice SampleWorld.now
      SampleWorld.w0
    = update_trello_card SampleWorld.cfg SampleWorld.api_twice
        "No high-impact news events found."
        (printed SampleWorld.w0
           ("Error fetching forex data: "
            +:+ Py.str_exn
                  (Py.HTTPError
                     "500 Server Error: Internal Server Error for url: https://www.forexfactory.com/calendar"))).
Proof.
  assert (fetch_fails SampleWorld.cfg SampleWorld.net_500 "Mozilla/5.0"
            (Py.HTTPError
               "500 Server Error: Internal Server Error for url: https://www.forexfactory.com/calendar"))
    as Hfail.
  { apply (fails_status _ _ _ _ "https://www.forexfactory.com/calendar"
             (SampleWorld.response 500 "Internal Server Error")); reflexivity. }
  split; [reflexivity|]. split; [exact Hfail|].
  exact (proj2 (main_posts_formatted_events SampleWorld.cfg SampleWorld.net_500
                  SampleWorld.api_twice SampleWorld.now SampleWorld.w0
                  "Mozilla/5.0" eq_refl) _ Hfail).
Defined.

(** X14.  With [forex_factory.user_agent] configured, [main] returns
    whatever the site and the service do, and posts at most one comment;
    without it, [main] raises the [KeyError] of the fetch with nothing
    printed and nothing posted: the update is not tried. *)
Theorem main_returns_or_lacks_user_agent (cfg : config) (net : web)
  (api : Trello.client) (now : datetime) (w : world) :
  (∀ user_agent,
     config_get cfg "forex_factory" "user_agent" = Ok user_agent →
     ∃ w', main cfg net api now w = (Ok tt, w')
           ∧ (posted w' = posted w
              ∨ ∃ card text, posted w' = posted w ++ [(Trello.card_id card, text)]))
  ∧ (∀ e,
       config_get cfg "forex_factory" "user_agent" = Raise e →
       main cfg net api now w = (Raise e, w)).
Proof.
  split.
  - intros ua Hua.
    destruct (fetch_outcome cfg net ua) as [[soup Hfetch]|[e Hfail]].
    + destruct (format_parse_news now soup) as [text Htext].
      rewrite (main_after_fetch cfg net api now soup text w ua Hua Hfetch Htext).
      destruct (update_posts_at_most_once cfg api text w) as (w' & Hw' & Hposted).
      exists w'. split; [done|]. destruct Hposted as [?|[card ?]]; eauto.
    + rewrite (main_after_failure cfg net api now e w ua Hua Hfail).
      destruct (update_posts_at_most_once cfg api
                  "No high-impact news events found."
                  (printed w ("Error fetching forex data: " +:+ Py.str_exn e)))
        as (w' & Hw' & Hposted).
      exists w'. split; [done|]. destruct Hposted as [?|[card ?]]; eauto.
  - intros e Hua. unfold main, bind.
    assert (get_high_impact_news cfg net w = (Raise e, w)) as ->
      by (by apply fetch_raises_iff).
    done.
Qed.

Lemma main_returns_or_lacks_user_agent_witness :
  config_get SampleWorld.cfg_no_agent "forex_factory" "user_agent"
    = Raise (Py.KeyError "user_agent")
  ∧ main SampleWorld.cfg_no_agent (SampleWorld.net_ok Sample.soup_two)
      SampleWorld.api_twice SampleWorld.now SampleWorld.w0
    = (Raise (Py.KeyError "user_agent"), SampleWorld.w0).
Proof.
  split; [reflexivity|].
  exact (proj2 (main_returns_or_lacks_user_agent SampleWorld.cfg_no_agent
                  (SampleWorld.net_ok Sample.soup_two) SampleWorld.api_twice
                  SampleWorld.now SampleWorld.w0)
           (Py.KeyError "user_agent") eq_refl).
Defined.

(** X15.  A configuration that cannot be loaded ends the process at once:
    when [config.yml] cannot be opened or parsed, [main] raises that error
    with nothing printed, requested or posted.  A configuration that
    loads is not checked further, and neither are the three credentials:
    [main] goes on with them as they are. *)
Theorem config_error_is_fatal (h : host)
  (TrelloClient : option string → option string → option string → Trello.client)
  (net : web) (now : datetime) (w : world) :
  (∀ e,
     (open_config h = Raise e
      ∨ ∃ file, open_config h = Ok file ∧ yaml_safe_load h file = Raise e) →
     main_process h TrelloClient net now w = (Raise e, w))
  ∧ (∀ file cfg,
       open_config h = Ok file → yaml_safe_load h file = Ok cfg →
       main_process h TrelloClient net now w
       = main cfg net
           (TrelloClient (getenv h "TRELLO_API_KEY") (getenv h "TRELLO_API_SECRET")
                         (getenv h "TRELLO_TOKEN"))
           now w).
Proof.
  split.
  - intros e [H|(file & Hfile & H)];
      unfold main_process, __init__, _load_config, bind, lift, obind.
    + by rewrite H.
    + by rewrite Hfile, H.
  - intros file cfg Hfile Hcfg.
    unfold main_process, __init__, _load_config, bind, lift, obind.
    by rewrite Hfile, Hcfg.
Qed.

Lemma config_error_is_fatal_witness :
  open_config SampleMore.host_no_file = Raise SampleMore.no_file
  ∧ main_process SampleMore.host_no_file (λ _ _ _, SampleWorld.api_twice)
      (SampleWorld.net_ok Sample.soup_two) SampleWorld.now SampleWorld.w0
    = (Raise SampleMore.no_file, SampleWorld.w0).
Proof.
  split; [reflexivity|].
  exact (proj1 (config_error_is_fatal SampleMore.host_no_file
                  (λ _ _ _, SampleWorld.api_twice)
                  (SampleWorld.net_ok Sample.soup_two) SampleWorld.now
                  SampleWorld.w0)
           SampleMore.no_file (or_introl eq_refl)).
Defined.
